(** * bench_report: the benchmark report generator of tools/bench

    A shallow embedding of [tools/bench/bench_report.py]: the two
    line-oriented parsers [parse_go] and [parse_ts], the number formatters
    [fmt_int] and [fmt_float], and the report assembled by [main].

    Python strings are sequences of Unicode code points; they are modelled
    as [list N].  Dictionaries with literal keys that the program builds
    itself ([out]) are finite maps; the items stored in them are records.
    Statements that can raise are in the [result] monad.  [main] takes the
    two logs by their decoded text and the load-generator file by the
    value that [json.load] returns; [main_files] takes the logs as files,
    opened and decoded as UTF-8 where the parsers read them.

    Of the Python runtime the development fixes white space, decimal
    printing of integers, and binary64 floats with their [".nf"] format;
    it takes as parameters the table of Unicode digits beyond ASCII, the
    reading of a number from a string, the [repr] of floats and
    containers, and the clock. *)

From Stdlib Require Import NArith ZArith Ascii String List.
From Stdlib Require Import Floats.SpecFloat.
From Stdlib Require DecimalPos DecimalN.
From stdpp Require Import base option list gmap strings.

Local Open Scope N_scope.

(** ** Python strings *)

Abbreviation str := (list N) (only parsing).

(** An ASCII literal of the source, as code points. *)
Definition lit (s : string) : str :=
  map N_of_ascii (list_ascii_of_string s).

Definition nl : str := [10].

(** [str.isspace] for one code point: the Unicode white space of CPython,
    which is also what [str.strip], [str.split] and the pattern [\s] use. *)
Definition isspace (c : N) : bool :=
  ((9 <=? c) && (c <=? 13)) || ((28 <=? c) && (c <=? 32))
  || (c =? 133) || (c =? 160) || (c =? 5760)
  || ((8192 <=? c) && (c <=? 8202))
  || (c =? 8232) || (c =? 8233) || (c =? 8239) || (c =? 8287)
  || (c =? 12288).

Fixpoint lstrip (s : str) : str :=
  match s with
  | c :: s' => if isspace c then lstrip s' else s
  | [] => []
  end.

Definition rstrip (s : str) : str := rev (lstrip (rev s)).

(** [s.strip()] *)
Definition strip (s : str) : str := rstrip (lstrip s).

(** [s.split()]: the maximal runs of non-space characters; [cur] is the
    run being read. *)
Fixpoint split_from (cur : str) (s : str) : list str :=
  match s with
  | [] => match cur with [] => [] | _ => [cur] end
  | c :: s' =>
      if isspace c
      then match cur with
           | [] => split_from [] s'
           | _ => cur :: split_from [] s'
           end
      else split_from (cur ++ [c]) s'
  end.

Definition split (s : str) : list str := split_from [] s.

(** [s.startswith(p)] *)
Fixpoint startswith (s p : str) : bool :=
  match p, s with
  | [], _ => true
  | a :: p', b :: s' => (a =? b) && startswith s' p'
  | _ :: _, [] => false
  end.

(** [s.endswith(p)] *)
Definition endswith (s p : str) : bool := startswith (rev s) (rev p).

(** [sub in s] *)
Fixpoint contains (s sub : str) : bool :=
  startswith s sub
  || match s with
     | [] => false
     | _ :: s' => contains s' sub
     end.

(** [s.replace(c, "")] for a one-character [c]. *)
Definition remove_char (c : N) (s : str) : str :=
  List.filter (fun x => negb (x =? c)) s.

(** [sep.join(rows)] *)
Fixpoint join (sep : str) (rows : list str) : str :=
  match rows with
  | [] => []
  | [r] => r
  | r :: rows' => r ++ sep ++ join sep rows'
  end.

(** Text-mode reading with universal newlines: [\r\n] and [\r] become
    [\n]. *)
Fixpoint universal_newlines (s : str) : str :=
  match s with
  | 13 :: s' =>
      match s' with
      | 10 :: _ => universal_newlines s'
      | _ => 10 :: universal_newlines s'
      end
  | c :: s' => c :: universal_newlines s'
  | [] => []
  end.

(** [for line in f]: each line keeps its terminating newline; a last line
    without one is yielded as it is. *)
Fixpoint lines_from (cur : str) (s : str) : list str :=
  match s with
  | [] => match cur with [] => [] | _ => [cur] end
  | c :: s' =>
      if c =? 10 then (cur ++ [c]) :: lines_from [] s'
      else lines_from (cur ++ [c]) s'
  end.

Definition file_lines (text : str) : list str :=
  lines_from [] (universal_newlines text).

(** [seg] occurs in [text] as a run of consecutive characters. *)
Definition segment_of (seg text : str) : Prop :=
  exists pre post, text = pre ++ seg ++ post.

(** ** Exceptions *)

Inductive exn :=
  KeyError | IndexError | ValueError | TypeError | AttributeError
| OverflowError | OSError | UnicodeDecodeError.

Inductive result (A : Type) : Type :=
| Ok (a : A)
| Raise (e : exn).
Arguments Ok {A} a.
Arguments Raise {A} e.

Global Instance result_ret : MRet result := fun A a => Ok a.
Global Instance result_bind : MBind result := fun A B f m =>
  match m with
  | Ok a => f a
  | Raise e => Raise e
  end.

(** [l[i]] *)
Definition getitem {A} (l : list A) (i : nat) : result A :=
  match l !! i with
  | Some x => Ok x
  | None => Raise IndexError
  end.

(** [out[k].append(x)] *)
Definition append {A} (k : string) (x : A) (out : gmap string (list A))
  : result (gmap string (list A)) :=
  match out !! k with
  | Some l => Ok (<[k := l ++ [x]]> out)
  | None => Raise KeyError
  end.

(** The body of a [for] loop run over a list, stopping at the first
    exception. *)
Fixpoint for_each {S A} (body : S -> A -> result S) (st : S) (l : list A)
  : result S :=
  match l with
  | [] => Ok st
  | x :: l' => st' ← body st x; for_each body st' l'
  end.

(** ** Benchmark records and groups *)

(** The item built by [parse_go]: the four captured strings. *)
Record go_item := GoItem {
  go_name : str;
  ns_op : str;
  b_op : str;
  allocs : str;
}.

(** The item built by [parse_ts]. *)
Record ts_item := TsItem {
  ts_name : str;
  hz : str;
  mean_ms : str;
}.

(** ** The pattern of a benchmark line

    [bench_re] uses only anchors, literals, capture groups without nesting
    and [+] applied to a character class; [re_item] is that fragment of the
    pattern language and [run] is the backtracking matcher for it. *)

Inductive cls :=
| NonSpace   (* \S *)
| Space      (* \s *)
| Digit      (* \d *)
| NumChar.   (* [0-9.] *)

Inductive re_item :=
| Bol                 (* ^ *)
| Eol                 (* $ *)
| Open                (* ( *)
| Close               (* ) *)
| Lit (s : str)       (* literal text *)
| Plus (c : cls).     (* c+ , greedy *)

(** [$] without [re.MULTILINE]: the end of the string, or just before a
    newline that ends it. *)
Definition at_end (s : str) : bool :=
  match s with
  | [] => true
  | [10] => true
  | _ => false
  end.

Definition grow (cur : option str) (taken : str) : option str :=
  match cur with
  | Some g => Some (g ++ taken)
  | None => None
  end.

(** [p+] followed by the rest of the pattern [k]: the longest run first,
    then shorter ones, never the empty one. *)
Fixpoint greedy {A} (p : N -> bool) (k : str -> str -> option A)
    (taken s : str) : option A :=
  match s with
  | c :: s' =>
      if p c then
        match greedy p k (taken ++ [c]) s' with
        | Some r => Some r
        | None => k (taken ++ [c]) s'
        end
      else None
  | [] => None
  end.

(** The dictionaries with the two and the three fixed keys. *)
Definition go_out (e t : list go_item) : gmap string (list go_item) :=
  <["e2ee" := e]> (<["tunnel" := t]> ∅).

Definition ts_out (h r y : list ts_item) : gmap string (list ts_item) :=
  <["handshake" := h]> (<["record" := r]> (<["yamux" := y]> ∅)).

(** The number of groups that a pattern closes. *)
Fixpoint closes (p : list re_item) : nat :=
  match p with
  | Close :: p' => S (closes p')
  | _ :: p' => closes p'
  | [] => 0
  end.

Section Parsers.

(** The code points beyond ASCII that [\d] accepts: the rest of the Unicode
    category Nd, a table of the Python runtime. *)
Variable nd_extra : N -> bool.

Definition isdigit (c : N) : bool :=
  if c <? 128 then (48 <=? c) && (c <=? 57) else nd_extra c.

Definition in_cls (k : cls) (c : N) : bool :=
  match k with
  | NonSpace => negb (isspace c)
  | Space => isspace c
  | Digit => isdigit c
  | NumChar => ((48 <=? c) && (c <=? 57)) || (c =? 46)
  end.

(** [groups] are the groups closed so far, [cur] the text of the open
    group, [pre] the text already matched, [s] the text ahead. *)
Fixpoint run (p : list re_item) (groups : list str) (cur : option str)
    (pre s : str) : option (list str) :=
  match p with
  | [] => Some groups
  | Bol :: p' =>
      match pre with
      | [] => run p' groups cur pre s
      | _ => None
      end
  | Eol :: p' => if at_end s then run p' groups cur pre s else None
  | Open :: p' => run p' groups (Some []) pre s
  | Close :: p' =>
      match cur with
      | Some g => run p' (groups ++ [g]) None pre s
      | None => None
      end
  | Lit l :: p' =>
      if startswith s l
      then run p' groups (grow cur l) (pre ++ l) (drop (length l) s)
      else None
  | Plus c :: p' =>
      greedy (in_cls c)
        (fun taken rest => run p' groups (grow cur taken) (pre ++ taken) rest)
        [] s
  end.

(** [pattern.match(s)] followed by [.groups()]; [None] when there is no
    match. *)
Definition re_match (p : list re_item) (s : str) : option (list str) :=
  run p [] None [] s.

(** [^(Benchmark\S+)\s+\d+\s+([0-9.]+) ns/op\s+([0-9.]+) B/op\s+(\d+) allocs/op$] *)
Definition bench_re : list re_item :=
  [ Bol; Open; Lit (lit "Benchmark"); Plus NonSpace; Close;
    Plus Space; Plus Digit; Plus Space;
    Open; Plus NumChar; Close; Lit (lit " ns/op"); Plus Space;
    Open; Plus NumChar; Close; Lit (lit " B/op"); Plus Space;
    Open; Plus Digit; Close; Lit (lit " allocs/op"); Eol ].

(** ** parse_go *)

(** The loop body of [parse_go]; the state is [(pkg, out)]. *)
Definition parse_go_line (st : str * gmap string (list go_item))
    (line : str) : result (str * gmap string (list go_item)) :=
  let '(pkg, out) := st in
  let line := strip line in
  if startswith line (lit "pkg:") then
    let parts := split line in
    if bool_decide (2 <= length parts)%nat
    then pkg' ← getitem parts 1; Ok (pkg', out)
    else Ok (pkg, out)
  else
    match re_match bench_re line with
    | None => Ok (pkg, out)
    | Some [name; ns; b; al] =>
        let item := GoItem name ns b al in
        if endswith pkg (lit "/crypto/e2ee")
        then out' ← append "e2ee" item out; Ok (pkg, out')
        else if endswith pkg (lit "/tunnel/server")
        then out' ← append "tunnel" item out; Ok (pkg, out')
        else Ok (pkg, out)
    | Some _ => Raise ValueError
    end.

(** [{"e2ee": [], "tunnel": []}] *)
Definition go_init : gmap string (list go_item) :=
  <["e2ee" := []]> (<["tunnel" := []]> ∅).

(** [parse_go], on the lines that iterating over the opened file yields. *)
Definition parse_go (f : list str) : result (gmap string (list go_item)) :=
  st ← for_each parse_go_line ([], go_init) f; Ok st.2.

(** ** parse_ts *)

(** The bullet of a result row, U+00B7. *)
Definition bullet : N := 183.

(** The loop body of [parse_ts]; the state is [(section, out)], and
    [section] is [None] or one of the three keys. *)
Definition parse_ts_line (st : option string * gmap string (list ts_item))
    (line : str) : result (option string * gmap string (list ts_item)) :=
  let '(section, out) := st in
  if contains line (lit "> e2ee handshake") then Ok (Some "handshake", out)
  else if contains line (lit "> e2ee record") then Ok (Some "record", out)
  else if contains line (lit "> yamux") then Ok (Some "yamux", out)
  else
    let line := strip line in
    match startswith line [bullet], section with
    | true, Some sec =>
        let parts := split (remove_char bullet line) in
        if bool_decide (length parts < 5)%nat then Ok (section, out)
        else
          name ← getitem parts 0;
          hz ← getitem parts 1;
          mean ← getitem parts 4;
          out' ← append sec (TsItem name hz mean) out;
          Ok (section, out')
    | _, _ => Ok (section, out)
    end.

(** [{"handshake": [], "record": [], "yamux": []}] *)
Definition ts_init : gmap string (list ts_item) :=
  <["handshake" := []]> (<["record" := []]> (<["yamux" := []]> ∅)).

Definition parse_ts (f : list str) : result (gmap string (list ts_item)) :=
  st ← for_each parse_ts_line (None, ts_init) f; Ok st.2.

(** *** Specification of the two loops

    What the two loops are to compute, stated without the dictionary and
    without exceptions: the records of the text in order, each with the
    package or section current at its line.  The properties below relate
    [parse_go] and [parse_ts] to these definitions. *)

(** The package current after [line]. *)
Definition next_pkg (pkg : str) (line : str) : str :=
  let line := strip line in
  if startswith line (lit "pkg:") then
    match split line with
    | _ :: p :: _ => p
    | _ => pkg
    end
  else pkg.

(** The record of a line that matches the record pattern. *)
Definition bench_record (line : str) : option go_item :=
  let line := strip line in
  if startswith line (lit "pkg:") then None
  else
    match re_match bench_re line with
    | Some [name; ns; b; al] => Some (GoItem name ns b al)
    | _ => None
    end.

(** The records of the lines [f] in order, each paired with the package
    current at its line; [pkg] is the package current before [f]. *)
Fixpoint go_records (pkg : str) (f : list str) : list (str * go_item) :=
  match f with
  | [] => []
  | line :: f' =>
      match bench_record line with
      | Some r => [(pkg, r)]
      | None => []
      end ++ go_records (next_pkg pkg line) f'
  end.

(** The records whose package ends with [suffix]. *)
Definition routed (suffix : str) (recs : list (str * go_item))
  : list go_item :=
  map snd (List.filter (fun pr => endswith pr.1 suffix) recs).

(** The section that a marker line sets. *)
Definition marker (line : str) : option string :=
  if contains line (lit "> e2ee handshake") then Some "handshake"
  else if contains line (lit "> e2ee record") then Some "record"
  else if contains line (lit "> yamux") then Some "yamux"
  else None.

(** The record of a qualifying bullet row. *)
Definition bullet_row (line : str) : option ts_item :=
  let line := strip line in
  if startswith line [bullet] then
    match split (remove_char bullet line) with
    | name :: hz :: f2 :: f3 :: mean :: _ => Some (TsItem name hz mean)
    | _ => None
    end
  else None.

(** The records of the lines [f] in order, each paired with the section
    set by the last marker line before it; [section] is the section
    current before [f]. *)
Fixpoint ts_records (section : option string) (f : list str)
  : list (string * ts_item) :=
  match f with
  | [] => []
  | line :: f' =>
      match marker line with
      | Some sec => ts_records (Some sec) f'
      | None =>
          match section, bullet_row line with
          | Some sec, Some r => (sec, r) :: ts_records section f'
          | _, _ => ts_records section f'
          end
      end
  end.

(** The records of section [sec]. *)
Definition in_section (sec : string) (recs : list (string * ts_item))
  : list ts_item :=
  map snd (List.filter (fun pr => bool_decide (pr.1 = sec)) recs).

(** The records that [line] adds when [pkg] is current. *)
Definition go_new (pkg line : str) : list (str * go_item) :=
  match bench_record line with
  | Some r => [(pkg, r)]
  | None => []
  end.

(** The records that [line] adds when [section] is current, and the
    section current after it. *)
Definition ts_new (section : option string) (line : str)
  : list (string * ts_item) :=
  match marker line with
  | Some _ => []
  | None =>
      match section, bullet_row line with
      | Some sec, Some r => [(sec, r)]
      | _, _ => []
      end
  end.

Definition ts_next (section : option string) (line : str) : option string :=
  match marker line with
  | Some sec => Some sec
  | None => section
  end.

(** The section current after the lines [f]. *)
Definition section_after (section : option string) (f : list str)
  : option string :=
  fold_left ts_next f section.

(** The values that [section] takes in [parse_ts]. *)
Definition valid_section (section : option string) : Prop :=
  section = None \/ section = Some "handshake"
  \/ section = Some "record" \/ section = Some "yamux".

(** A line that [parse_go] does not skip: a package declaration or a
    match of the record pattern. *)
Definition go_line_matches (line : str) : bool :=
  startswith (strip line) (lit "pkg:")
  || bool_decide (re_match bench_re (strip line) <> None).

(** A line that [parse_ts] does not skip: a section marker or a
    qualifying bullet row. *)
Definition ts_line_matches (line : str) : bool :=
  bool_decide (marker line <> None) || bool_decide (bullet_row line <> None).

End Parsers.



(** ** Numbers and their text *)

Fixpoint uint_chars (u : Decimal.uint) : str :=
  match u with
  | Decimal.Nil => []
  | Decimal.D0 u => 48 :: uint_chars u
  | Decimal.D1 u => 49 :: uint_chars u
  | Decimal.D2 u => 50 :: uint_chars u
  | Decimal.D3 u => 51 :: uint_chars u
  | Decimal.D4 u => 52 :: uint_chars u
  | Decimal.D5 u => 53 :: uint_chars u
  | Decimal.D6 u => 54 :: uint_chars u
  | Decimal.D7 u => 55 :: uint_chars u
  | Decimal.D8 u => 56 :: uint_chars u
  | Decimal.D9 u => 57 :: uint_chars u
  end.

(** The decimal digits of a natural number. *)
Definition digits (n : N) : str := uint_chars (N.to_uint n).

Definition sign (negative : bool) : str :=
  if negative then lit "-" else [].

(** [str(z)] for an [int] *)
Definition str_of_int (z : Z) : str :=
  sign (z <? 0)%Z ++ digits (Z.abs_N z).

(** Commas between groups of three, on the digits from the last one. *)
Fixpoint group3 (r : str) : str :=
  match r with
  | a :: b :: c :: rest =>
      match rest with
      | [] => r
      | _ => a :: b :: c :: 44 :: group3 rest
      end
  | _ => r
  end.

(** [format(z, ",")] for an [int] *)
Definition format_comma (z : Z) : str :=
  sign (z <? 0)%Z ++ rev (group3 (rev (digits (Z.abs_N z)))).

(** Python floats are IEEE binary64 numbers. *)
Abbreviation float := spec_float (only parsing).

(** [float(z)] for an [int]: the nearest float, ties to even. *)
Definition float_of_int (z : Z) : result float :=
  match binary_normalize 53 1024 z 0 false with
  | S754_infinity _ => Raise OverflowError
  | x => Ok x
  end.

(** [int(x)] for a float: truncation towards zero. *)
Definition int_of_float (x : float) : result Z :=
  match x with
  | S754_zero _ => Ok 0%Z
  | S754_infinity _ => Raise OverflowError
  | S754_nan => Raise ValueError
  | S754_finite s m e =>
      let v := (if 0 <=? e then Z.pos m * 2 ^ e else Z.pos m / 2 ^ (- e))%Z in
      Ok (if s then - v else v)%Z
  end.

(** [num / den] rounded to the nearest integer, ties to even. *)
Definition round_half_even (num den : Z) : Z :=
  let q := (num / den)%Z in
  match (2 * (num mod den) ?= den)%Z with
  | Lt => q
  | Gt => (q + 1)%Z
  | Eq => if Z.even q then q else (q + 1)%Z
  end.

(** The text of [n / 10^places] with [places] digits after the point. *)
Definition fixed_digits (places : nat) (n : N) : str :=
  let d := digits n in
  let d := repeat 48 (S places - length d) ++ d in
  take (length d - places) d
  ++ match places with
     | O => []
     | _ => lit "." ++ drop (length d - places) d
     end.

(** [format(x, ".{places}f")] for a float: the exact value of [x] rounded
    to [places] decimals, ties to even. *)
Definition format_f (places : nat) (x : float) : str :=
  match x with
  | S754_nan => lit "nan"
  | S754_infinity s => sign s ++ lit "inf"
  | S754_zero s => sign s ++ fixed_digits places 0
  | S754_finite s m e =>
      let num := (Z.pos m * 10 ^ Z.of_nat places)%Z in
      let n := (if 0 <=? e then num * 2 ^ e
                else round_half_even num (2 ^ (- e)))%Z in
      sign s ++ fixed_digits places (Z.to_N n)
  end.

(** *** The two renderings of a number

    What it is for a text to have thousands separators and to have a fixed
    number of decimals. *)

Definition is_ascii_digit (c : N) : bool := (48 <=? c) && (c <=? 57).

(** [s] is the digits [d] with a comma before each group of three digits
    counted from the last one. *)
Definition thousands_grouped (d s : str) : Prop :=
  exists first groups,
    d = first ++ concat groups
    /\ s = first ++ concat (map (fun g => 44 :: g) groups)
    /\ (1 <= length first <= 3)%nat
    /\ Forall (fun g => length g = 3%nat) groups
    /\ Forall (fun c => is_ascii_digit c = true) d.

(** [s] is an optional minus sign, one digit or more, a point and exactly
    [places] digits. *)
Definition fixed_decimals (places : nat) (s : str) : Prop :=
  exists negative ip frac,
    s = sign negative ++ ip ++ lit "." ++ frac
    /\ ip <> []
    /\ length frac = places
    /\ Forall (fun c => is_ascii_digit c = true) (ip ++ frac).

(** A float that is a number: neither an infinity nor a NaN. *)
Definition finite (x : float) : bool :=
  match x with
  | S754_zero _ | S754_finite _ _ _ => true
  | _ => false
  end.

(** ** The load-generator document *)

(** What [json.load] returns.  An object is the list of its members, each
    key once. *)
#[local] Set Warnings "-register-all".
Inductive json :=
| JNull
| JBool (b : bool)
| JInt (z : Z)
| JFloat (x : float)
| JStr (s : str)
| JArr (l : list json)
| JObj (members : list (str * json)).

Fixpoint member (k : str) (members : list (str * json)) : option json :=
  match members with
  | [] => None
  | (k', v) :: rest => if bool_decide (k' = k) then Some v else member k rest
  end.

(** [d.get(k, default)] *)
Definition get (d : json) (k : str) (default : json) : result json :=
  match d with
  | JObj members => Ok (from_option id default (member k members))
  | _ => Raise AttributeError
  end.

(** [k in d] *)
Definition has_key (k : str) (d : json) : result bool :=
  match d with
  | JObj members => Ok (bool_decide (member k members <> None))
  | JArr l =>
      Ok (existsb (fun v => match v with
                            | JStr s => bool_decide (s = k)
                            | _ => false
                            end) l)
  | JStr s => Ok (contains s k)
  | _ => Raise TypeError
  end.

(** [d[k]] for a string [k] *)
Definition subscript (d : json) (k : str) : result json :=
  match d with
  | JObj members =>
      match member k members with
      | Some v => Ok v
      | None => Raise KeyError
      end
  | _ => Raise TypeError
  end.

(** [d[k]] for a dictionary built by a parser *)
Definition bucket {A} (d : gmap string (list A)) (k : string)
  : result (list A) :=
  match d !! k with
  | Some l => Ok l
  | None => Raise KeyError
  end.

(** [for x in l] collecting one result per element. *)
Fixpoint map_result {A B} (f : A -> result B) (l : list A)
  : result (list B) :=
  match l with
  | [] => Ok []
  | x :: l' => y ← f x; ys ← map_result f l'; Ok (y :: ys)
  end.

(** The command-line arguments that reach the report. *)
Record args := Args {
  run_date : str;
  os : str;
  cpu : str;
  ram_bytes : str;
  go_version : str;
  node_version : str;
  gomaxprocs : str;
  gomemlimit : str;
  node_options : str;
  go_command : str;
  ts_command : str;
  loadgen_command : str;
}.

Definition go_row (r : go_item) : str :=
  lit "| " ++ go_name r ++ lit " | " ++ ns_op r ++ lit " | " ++ b_op r
  ++ lit " | " ++ allocs r ++ lit " |".

Definition ts_row (r : ts_item) : str :=
  lit "| " ++ ts_name r ++ lit " | " ++ hz r ++ lit " | " ++ mean_ms r
  ++ lit " |".

(** A row [| key | value |]. *)
Definition kv_row (k v : str) : str :=
  lit "| " ++ k ++ lit " | " ++ v ++ lit " |".

Definition stages : list str :=
  [ lit "ws_open"; lit "attach_send"; lit "pair_ready"; lit "handshake";
    lit "rpc_call" ].

Definition config_order : list str :=
  [ lit "mode"; lit "channels"; lit "rate_per_sec"; lit "ramp_step";
    lit "ramp_interval_ms"; lit "steady_duration_ms"; lit "workers";
    lit "conn_timeout_ms"; lit "rpc_timeout_ms"; lit "report_interval_ms";
    lit "max_handshake_bytes"; lit "max_record_bytes";
    lit "max_buffered_bytes"; lit "max_pending_bytes";
    lit "idle_timeout_ms"; lit "cleanup_interval_ms"; lit "max_conns";
    lit "max_channels" ].

(** The f-string at the end of [main], line by line. *)
Definition content (run_date : str) (env_lines : list str) (a : args)
    (go_table tunnel_table handshake_table record_table yamux_table
     summary_table config_table latency_table resources_table : str) : str :=
  join nl
    [ lit "# Benchmark Results"; [];
      lit "Run date: " ++ run_date; [];
      lit "## Environment"; [];
      join nl env_lines; [];
      lit "## Commands"; [];
      lit "```bash";
      lit "# Go micro benches";
      go_command a; [];
      lit "# TS micro benches";
      ts_command a; [];
      lit "# Load generator (full mode, loopback)";
      loadgen_command a;
      lit "```"; [];
      lit "## Go Benchmarks"; [];
      lit "### E2EE (ns/op, B/op, allocs/op)"; [];
      lit "| Benchmark | ns/op | B/op | allocs/op |";
      lit "| --- | ---: | ---: | ---: |";
      go_table; [];
      lit "### Tunnel Server Hot Path (ns/op, B/op, allocs/op)"; [];
      lit "| Benchmark | ns/op | B/op | allocs/op |";
      lit "| --- | ---: | ---: | ---: |";
      tunnel_table; [];
      lit "## TypeScript Benchmarks"; [];
      lit "### E2EE Handshake (ops/s, mean ms)"; [];
      lit "| Benchmark | ops/s (hz) | mean (ms) |";
      lit "| --- | ---: | ---: |";
      handshake_table; [];
      lit "### E2EE Record (ops/s, mean ms)"; [];
      lit "| Benchmark | ops/s (hz) | mean (ms) |";
      lit "| --- | ---: | ---: |";
      record_table; [];
      lit "### Yamux (ops/s, mean ms)"; [];
      lit "| Benchmark | ops/s (hz) | mean (ms) |";
      lit "| --- | ---: | ---: |";
      yamux_table; [];
      lit "## Load Generator (full mode)"; [];
      lit "### Summary"; [];
      lit "| Metric | Value |";
      lit "| --- | ---: |";
      summary_table; [];
      lit "### Config"; [];
      lit "| Key | Value |";
      lit "| --- | --- |";
      config_table; [];
      lit "### Latency (ms)"; [];
      lit "| Stage | p50 | p95 | p99 | mean | min | max |";
      lit "| --- | ---: | ---: | ---: | ---: | ---: | ---: |";
      latency_table; [];
      lit "### Resources (peak)"; [];
      lit "| Metric | Value |";
      lit "| --- | ---: |";
      resources_table; [] ].

Section Report.

(** Of the Python runtime: the Unicode digits of [\d] beyond ASCII,
    [float(s)] and [int(s)] on a string ([None] for [ValueError]), the
    text that [str] gives a float, a list or a dictionary, and the
    formatted current time. *)
Variable nd_extra : N -> bool.
Variable float_of_str : str -> option float.
Variable int_of_str : str -> option Z.
Variable repr_other : json -> str.
Variable now : str.

(** [int(v)] *)
Definition py_int (v : json) : result Z :=
  match v with
  | JInt z => Ok z
  | JBool b => Ok (if b then 1 else 0)%Z
  | JFloat x => int_of_float x
  | JStr s =>
      match int_of_str s with
      | Some z => Ok z
      | None => Raise ValueError
      end
  | _ => Raise TypeError
  end.

(** [float(v)] *)
Definition py_float (v : json) : result float :=
  match v with
  | JInt z => float_of_int z
  | JBool b => float_of_int (if b then 1 else 0)
  | JFloat x => Ok x
  | JStr s =>
      match float_of_str s with
      | Some x => Ok x
      | None => Raise ValueError
      end
  | _ => Raise TypeError
  end.

(** [str(v)], which is what an f-string field without a format does. *)
Definition py_str (v : json) : str :=
  match v with
  | JNull => lit "None"
  | JBool b => if b then lit "True" else lit "False"
  | JInt z => str_of_int z
  | JStr s => s
  | _ => repr_other v
  end.

Definition fmt_int (v : json) : result str :=
  z ← py_int v; Ok (format_comma z).

Definition fmt_float (v : json) (places : nat) : result str :=
  x ← py_float v; Ok (format_f places x).

(** One iteration of the loop that builds [latency_rows]. *)
Definition latency_row (latency : json) (stage : str) : result str :=
  item ← get latency stage (JObj []);
  p50 ← (get item (lit "p50_ms") (JInt 0) ≫= fun v => fmt_float v 6);
  p95 ← (get item (lit "p95_ms") (JInt 0) ≫= fun v => fmt_float v 6);
  p99 ← (get item (lit "p99_ms") (JInt 0) ≫= fun v => fmt_float v 6);
  mean ← (get item (lit "mean_ms") (JInt 0) ≫= fun v => fmt_float v 6);
  min ← (get item (lit "min_ms") (JInt 0) ≫= fun v => fmt_float v 6);
  max ← (get item (lit "max_ms") (JInt 0) ≫= fun v => fmt_float v 6);
  Ok (lit "| " ++ stage ++ lit " | " ++ p50 ++ lit " | " ++ p95
      ++ lit " | " ++ p99 ++ lit " | " ++ mean ++ lit " | " ++ min
      ++ lit " | " ++ max ++ lit " |").

(** One iteration of the loop that builds [config_rows]: the rows so far,
    with the row of [key] when the document has it. *)
Definition config_row (config : json) (rows : list str) (key : str)
  : result (list str) :=
  present ← has_key key config;
  if (present : bool)
  then v ← subscript config key; Ok (rows ++ [kv_row key (py_str v)])
  else Ok rows.

Definition resources_row (resources : json) (key : str) : result str :=
  v ← get resources key (JInt 0);
  n ← fmt_int v;
  Ok (kv_row key n).

Definition resources_table (resources : json) : result str :=
  r1 ← resources_row resources (lit "max_heap_alloc_bytes");
  r2 ← resources_row resources (lit "max_heap_inuse_bytes");
  r3 ← resources_row resources (lit "max_sys_bytes");
  r4 ← resources_row resources (lit "max_goroutines");
  Ok (join nl [r1; r2; r3; r4]).

(** A summary row whose value is interpolated as it is. *)
Definition summary_row (summary : json) (key : str) : result str :=
  v ← get summary key (JInt 0);
  Ok (kv_row key (py_str v)).

Definition summary_table (summary : json) : result str :=
  r1 ← summary_row summary (lit "attempts");
  r2 ← summary_row summary (lit "success");
  r3 ← summary_row summary (lit "failure");
  r4 ← summary_row summary (lit "success_rate");
  r5 ← (get summary (lit "duration_seconds") (JInt 0) ≫= fun v =>
        d ← fmt_float v 4; Ok (kv_row (lit "duration_seconds") d));
  r6 ← summary_row summary (lit "peak_conn_per_sec");
  r7 ← summary_row summary (lit "active_peak");
  Ok (join nl [r1; r2; r3; r4; r5; r6; r7]).

(** [main]: from the arguments, the text of the two benchmark logs and the
    load-generator document, the text written to [args.out]. *)
Definition main (a : args) (go_output ts_output : str) (loadgen : json)
  : result str :=
  let run_date := match run_date a with [] => now | d => d end in
  go_bench ← parse_go nd_extra (file_lines go_output);
  ts_bench ← parse_ts (file_lines ts_output);
  ram ← match float_of_str (ram_bytes a) with
        | Some x => Ok x
        | None => Raise ValueError
        end;
  let ram_gb :=
    SFdiv 53 1024 ram (binary_normalize 53 1024 (1024 ^ 3) 0 false) in
  let env_lines :=
    [ lit "- OS: " ++ os a;
      lit "- CPU: " ++ cpu a;
      lit "- RAM: " ++ format_f 1 ram_gb ++ lit " GB";
      lit "- Go: " ++ go_version a;
      lit "- Node: " ++ node_version a;
      lit "- Constraints used:";
      lit "  - Go: `GOMAXPROCS=" ++ gomaxprocs a ++ lit "`, `GOMEMLIMIT="
        ++ gomemlimit a ++ lit "`";
      lit "  - Node: `NODE_OPTIONS=" ++ node_options a ++ lit "`" ] in
  go_table ← (rows ← bucket go_bench "e2ee"; Ok (join nl (map go_row rows)));
  tunnel_table ←
    (rows ← bucket go_bench "tunnel"; Ok (join nl (map go_row rows)));
  handshake_table ←
    (rows ← bucket ts_bench "handshake"; Ok (join nl (map ts_row rows)));
  record_table ←
    (rows ← bucket ts_bench "record"; Ok (join nl (map ts_row rows)));
  yamux_table ←
    (rows ← bucket ts_bench "yamux"; Ok (join nl (map ts_row rows)));
  summary ← get loadgen (lit "summary") (JObj []);
  config ← get loadgen (lit "config") (JObj []);
  latency ← get loadgen (lit "latency") (JObj []);
  resources ← get loadgen (lit "resources") (JObj []);
  latency_rows ← map_result (latency_row latency) stages;
  let latency_table := join nl latency_rows in
  config_rows ← for_each (config_row config) [] config_order;
  let config_table := join nl config_rows in
  resources_table ← resources_table resources;
  summary_table ← summary_table summary;
  Ok (content run_date env_lines a go_table tunnel_table handshake_table
        record_table yamux_table summary_table config_table latency_table
        resources_table).

(** *** The stages of [main]

    The values that [main] gives its locals, each as a function of the
    inputs, to state what [main] returns. *)

Definition report_run_date (a : args) : str :=
  match run_date a with
  | [] => now
  | d => d
  end.

Definition report_env_lines (a : args) (ram : float) : list str :=
  [ lit "- OS: " ++ os a;
    lit "- CPU: " ++ cpu a;
    lit "- RAM: "
      ++ format_f 1
           (SFdiv 53 1024 ram (binary_normalize 53 1024 (1024 ^ 3) 0 false))
      ++ lit " GB";
    lit "- Go: " ++ go_version a;
    lit "- Node: " ++ node_version a;
    lit "- Constraints used:";
    lit "  - Go: `GOMAXPROCS=" ++ gomaxprocs a ++ lit "`, `GOMEMLIMIT="
      ++ gomemlimit a ++ lit "`";
    lit "  - Node: `NODE_OPTIONS=" ++ node_options a ++ lit "`" ].

Definition ram_stage (a : args) : result float :=
  match float_of_str (ram_bytes a) with
  | Some x => Ok x
  | None => Raise ValueError
  end.

Definition latency_stage (loadgen : json) : result str :=
  latency ← get loadgen (lit "latency") (JObj []);
  rows ← map_result (latency_row latency) stages;
  Ok (join nl rows).

Definition config_stage (loadgen : json) : result str :=
  config ← get loadgen (lit "config") (JObj []);
  rows ← for_each (config_row config) [] config_order;
  Ok (join nl rows).

Definition resources_stage (loadgen : json) : result str :=
  resources ← get loadgen (lit "resources") (JObj []);
  resources_table resources.

Definition summary_stage (loadgen : json) : result str :=
  summary ← get loadgen (lit "summary") (JObj []);
  summary_table summary.

(** *** The cells of the load-generator tables

    [cell] is the field [key] of [d], zero when absent, written as an
    integer with thousands separators; written with [places] decimals;
    and [row] is the row of the field written as [str] gives it. *)

Definition grouped_cell (d : json) (key cell : str) : Prop :=
  exists v z s,
    get d key (JInt 0) = Ok v /\ py_int v = Ok z
    /\ cell = sign (z <? 0)%Z ++ s
    /\ thousands_grouped (digits (Z.abs_N z)) s.

Definition fixed_cell (places : nat) (d : json) (key cell : str) : Prop :=
  exists v x,
    get d key (JInt 0) = Ok v /\ py_float v = Ok x
    /\ cell = format_f places x
    /\ (finite x = true -> fixed_decimals places cell).

Definition plain_row (d : json) (key row : str) : Prop :=
  exists v, get d key (JInt 0) = Ok v /\ row = kv_row key (py_str v).

End Report.

(** ** Sample inputs *)

(** A digit table with nothing beyond ASCII; the samples below are ASCII
    text, for which the table is not consulted. *)
Definition ascii_digits : N -> bool := fun _ => false.

Definition seal_line : str :=
  lit "BenchmarkSeal 1000000 52.3 ns/op 16 B/op 1 allocs/op".

Definition seal_item : go_item :=
  GoItem (lit "BenchmarkSeal") (lit "52.3") (lit "16") (lit "1").

(** The package line of the e2ee package, then one benchmark line. *)
Definition seal_log : str :=
  lit "pkg: example.com/crypto/e2ee" ++ nl ++ seal_line ++ nl.

(** The same two lines, indented, among lines that match no pattern. *)
Definition noisy_seal_log : str :=
  lit "goos: linux" ++ nl
  ++ lit "  pkg: example.com/crypto/e2ee  " ++ nl
  ++ lit "cpu: Intel(R) Xeon(R)" ++ nl
  ++ [9] ++ seal_line ++ nl
  ++ lit "PASS" ++ nl
  ++ lit "ok  " ++ [9] ++ lit "example.com/crypto/e2ee" ++ [9] ++ lit "1.234s"
  ++ nl.

(** The same benchmark line under a package whose last segment is [e2ee]
    but which is not [.../crypto/e2ee]. *)
Definition other_e2ee_log : str :=
  lit "pkg: example.com/other/e2ee" ++ nl ++ seal_line ++ nl.

(** Two benchmark lines and no package line. *)
Definition no_pkg_log : str :=
  lit "goos: linux" ++ nl ++ seal_line ++ nl ++ seal_line ++ nl.

(** A script log: a row before any marker, a marker, a row, a short row,
    a second marker, a row. *)
Definition ts_log : str :=
  [32; bullet] ++ lit " early 1.0 2 3 4.5" ++ nl
  ++ lit " > e2ee handshake" ++ nl
  ++ [32; 32; bullet] ++ lit " init 100.5 0.1 0.2 9.95 0.3" ++ nl
  ++ [32; 32; bullet] ++ lit " short 1 2" ++ nl
  ++ lit " > yamux" ++ nl
  ++ [32; 32; bullet] ++ lit " open 2,000.25 0.1 0.2 0.4999 0.3" ++ nl.

(** A runtime for the samples: [float] and [int] read the one number that
    the samples pass as text, and the documents of the samples hold no
    float, list or dictionary to print. *)
Definition sample_float_of_str (s : str) : option float :=
  if bool_decide (s = lit "17179869184")
  then Some (binary_normalize 53 1024 17179869184 0 false)
  else None.

Definition sample_int_of_str (s : str) : option Z :=
  if bool_decide (s = lit "17179869184") then Some 17179869184%Z else None.

Definition sample_repr (v : json) : str := [].

Definition sample_now : str := lit "Wed Nov  4 09:38:00 2026".

Definition sample_args : args :=
  Args [] (lit "linux") (lit "cpu0") (lit "17179869184") (lit "go1.22")
       (lit "v20") (lit "4") (lit "2GiB") (lit "--max-old-space-size=2048")
       (lit "go test -bench .") (lit "npm run bench") (lit "loadgen full").

(** A document without the [resources] key. *)
Definition no_resources_members : list (str * json) :=
  [ (lit "summary",
          JObj [ (lit "attempts", JInt 1234567); (lit "success", JInt 1234000);
                 (lit "duration_seconds", JInt 30) ]);
    (lit "config", JObj [ (lit "mode", JStr (lit "full")) ]) ].

Definition no_resources_doc : json := JObj no_resources_members.

(** The latency of a document in which one timing is the NaN that
    [json.load] accepts. *)
Definition nan_latency : json :=
  JObj [ (lit "ws_open", JObj [ (lit "p50_ms", JFloat S754_nan) ]) ].

(** The resources of a document with large counters. *)
Definition big_resources : json :=
  JObj [ (lit "max_heap_alloc_bytes", JInt 1234567890);
         (lit "max_goroutines", JInt 1024) ].

(** A line that is both a marker and, once trimmed, a bullet row of six
    fields. *)
Definition marker_bullet_line : str :=
  [32; bullet] ++ lit " > yamux 12.5 1 2 0.08" ++ nl.

(** The report from the blank line before the heading of the Go
    benchmarks to the blank line after the heading of the TypeScript
    benchmarks, when the e2ee table has the one row of [seal_item] and
    the tunnel table has its two header lines and no row. *)
Definition seal_go_tables : str :=
  join nl
    [ [];
      lit "## Go Benchmarks"; [];
      lit "### E2EE (ns/op, B/op, allocs/op)"; [];
      lit "| Benchmark | ns/op | B/op | allocs/op |";
      lit "| --- | ---: | ---: | ---: |";
      lit "| BenchmarkSeal | 52.3 | 16 | 1 |"; [];
      lit "### Tunnel Server Hot Path (ns/op, B/op, allocs/op)"; [];
      lit "| Benchmark | ns/op | B/op | allocs/op |";
      lit "| --- | ---: | ---: | ---: |";
      []; [];
      lit "## TypeScript Benchmarks"; [] ].

(** The end of the report, from the blank line before the heading of the
    resources, when the four counters are zero. *)
Definition zero_resources_section : str :=
  join nl
    [ [];
      lit "### Resources (peak)"; [];
      lit "| Metric | Value |";
      lit "| --- | ---: |";
      lit "| max_heap_alloc_bytes | 0 |";
      lit "| max_heap_inuse_bytes | 0 |";
      lit "| max_sys_bytes | 0 |";
      lit "| max_goroutines | 0 |"; [] ].

(** A document without resources whose config is [null]. *)
Definition null_config_members : list (str * json) :=
  [ (lit "config", JNull) ].

(** ** Notions for further properties *)

(** The package current after the lines [f]. *)
Definition pkg_after (pkg : str) (f : list str) : str :=
  fold_left next_pkg f pkg.

(** A package line, and one that names a package. *)
Definition is_pkg_line (line : str) : bool :=
  startswith (strip line) (lit "pkg:").

Definition names_pkg (line : str) : bool :=
  is_pkg_line line && bool_decide (2 <= length (split (strip line)))%nat.

(** The number that a string of decimal digits denotes, and the integer
    that an optional minus sign followed by digits denotes. *)
Definition decimal_value (s : str) : N :=
  fold_left (fun acc c => 10 * acc + (c - 48)) s 0.

Definition int_value (s : str) : Z :=
  match s with
  | 45 :: d => (- Z.of_N (decimal_value d))%Z
  | _ => Z.of_N (decimal_value s)
  end.

(** A character of [[0-9.]]. *)
Definition is_num_char (c : N) : bool := is_ascii_digit c || (c =? 46).

(** What the pattern guarantees of a record of [parse_go]: the name is
    [Benchmark] followed by at least one character and has no white
    space; the two measurements are non-empty strings over [[0-9.]]; the
    allocation count is a non-empty string of digits. *)
Definition go_item_ok (nd : N -> bool) (r : go_item) : Prop :=
  (exists rest, go_name r = lit "Benchmark" ++ rest /\ rest <> [])
  /\ Forall (fun c => isspace c = false) (go_name r)
  /\ ns_op r <> [] /\ Forall (fun c => is_num_char c = true) (ns_op r)
  /\ b_op r <> [] /\ Forall (fun c => is_num_char c = true) (b_op r)
  /\ allocs r <> [] /\ Forall (fun c => isdigit nd c = true) (allocs r).

(** What splitting guarantees of a field of a record of [parse_ts]: it is
    not empty and has neither white space nor a bullet. *)
Definition ts_field_ok (field : str) : Prop :=
  field <> [] /\ Forall (fun c => isspace c = false /\ c <> bullet) field.

Definition ts_item_ok (r : ts_item) : Prop :=
  ts_field_ok (ts_name r) /\ ts_field_ok (hz r) /\ ts_field_ok (mean_ms r).

(** The rows of the config table for the members [cm] of the config
    object: one for each key of [config_order] that [cm] has, in the order
    of [config_order]. *)
Definition config_rows_of (repr_other : json -> str)
    (cm : list (str * json)) : list str :=
  omap (fun key =>
          (fun v => kv_row key (py_str repr_other v)) <$> member key cm)
    config_order.

(** The latency row of a stage without timings. *)
Definition zero_latency_row (stage : str) : str :=
  lit "| " ++ stage
  ++ lit " | 0.000000 | 0.000000 | 0.000000 | 0.000000 | 0.000000 | 0.000000 |".

(** The summary table of a document without summary. *)
Definition default_summary_table : str :=
  join nl [ lit "| attempts | 0 |"; lit "| success | 0 |";
            lit "| failure | 0 |"; lit "| success_rate | 0 |";
            lit "| duration_seconds | 0.0000 |";
            lit "| peak_conn_per_sec | 0 |"; lit "| active_peak | 0 |" ].

Definition is_object (d : json) : bool :=
  match d with
  | JObj _ => true
  | _ => false
  end.

(** The keys of the four counters of the resources table. *)
Definition resource_keys : list str :=
  [ lit "max_heap_alloc_bytes"; lit "max_heap_inuse_bytes";
    lit "max_sys_bytes"; lit "max_goroutines" ].

(** A document whose config has keys out of order and an unknown key. *)
Definition shuffled_config : list (str * json) :=
  [ (lit "workers", JInt 8); (lit "color", JStr (lit "red"));
    (lit "mode", JStr (lit "full")); (lit "channels", JInt 2000) ].

(** A document whose resources have a counter that is [null]. *)
Definition null_counter_members : list (str * json) :=
  [ (lit "resources",
     JObj [ (lit "max_heap_alloc_bytes", JInt 10);
            (lit "max_sys_bytes", JNull) ]) ].

(** A config that is not a container: [null], a Boolean or a number. *)
Definition is_scalar (d : json) : bool :=
  match d with
  | JNull | JBool _ | JInt _ | JFloat _ => true
  | _ => false
  end.

(** The benchmark output of a second package. *)
Definition tunnel_log : str :=
  lit "pkg: example.com/tunnel/server" ++ nl
  ++ lit "BenchmarkRelay-8 5000 210.7 ns/op 48 B/op 2 allocs/op" ++ nl.

Definition relay_item : go_item :=
  GoItem (lit "BenchmarkRelay-8") (lit "210.7") (lit "48") (lit "2").

(** ** The log files

    [parse_go] and [parse_ts] open their file themselves, with
    [encoding="utf-8"], and iterate over its lines.  A file is the bytes
    it holds, or it cannot be opened. *)

Inductive file :=
| NoFile
| Bytes (b : list N).

Definition between (lo hi b : N) : bool := (lo <=? b) && (b <=? hi).

(** The strict UTF-8 decoder: shortest forms only, no surrogates, nothing
    above [U+10FFFF]; [None] where Python raises [UnicodeDecodeError]. *)
Fixpoint utf8_decode (bs : list N) : option str :=
  match bs with
  | [] => Some []
  | b1 :: r1 =>
      if b1 <? 128 then cons b1 <$> utf8_decode r1
      else if between 194 223 b1 then
        match r1 with
        | b2 :: r2 =>
            if between 128 191 b2
            then cons ((b1 - 192) * 64 + (b2 - 128)) <$> utf8_decode r2
            else None
        | _ => None
        end
      else if between 224 239 b1 then
        match r1 with
        | b2 :: b3 :: r3 =>
            if between (if b1 =? 224 then 160 else 128)
                       (if b1 =? 237 then 159 else 191) b2
               && between 128 191 b3
            then cons ((b1 - 224) * 4096 + (b2 - 128) * 64 + (b3 - 128))
                   <$> utf8_decode r3
            else None
        | _ => None
        end
      else if between 240 244 b1 then
        match r1 with
        | b2 :: b3 :: b4 :: r4 =>
            if between (if b1 =? 240 then 144 else 128)
                       (if b1 =? 244 then 143 else 191) b2
               && between 128 191 b3 && between 128 191 b4
            then cons ((b1 - 240) * 262144 + (b2 - 128) * 4096
                       + (b3 - 128) * 64 + (b4 - 128))
                   <$> utf8_decode r4
            else None
        | _ => None
        end
      else None
  end.

(** The text of a file opened for reading as UTF-8. *)
Definition read_text (f : file) : result str :=
  match f with
  | NoFile => Raise OSError
  | Bytes b =>
      match utf8_decode b with
      | Some text => Ok text
      | None => Raise UnicodeDecodeError
      end
  end.

Section Files.

Variable nd_extra : N -> bool.
Variable float_of_str : str -> option float.
Variable int_of_str : str -> option Z.
Variable repr_other : json -> str.
Variable now : str.

(** [main] after the two parsers have returned. *)
Definition assemble (a : args) (go_bench : gmap string (list go_item))
    (ts_bench : gmap string (list ts_item)) (loadgen : json) : result str :=
  let run_date := match run_date a with [] => now | d => d end in
  ram ← match float_of_str (ram_bytes a) with
        | Some x => Ok x
        | None => Raise ValueError
        end;
  let ram_gb :=
    SFdiv 53 1024 ram (binary_normalize 53 1024 (1024 ^ 3) 0 false) in
  let env_lines :=
    [ lit "- OS: " ++ os a;
      lit "- CPU: " ++ cpu a;
      lit "- RAM: " ++ format_f 1 ram_gb ++ lit " GB";
      lit "- Go: " ++ go_version a;
      lit "- Node: " ++ node_version a;
      lit "- Constraints used:";
      lit "  - Go: `GOMAXPROCS=" ++ gomaxprocs a ++ lit "`, `GOMEMLIMIT="
        ++ gomemlimit a ++ lit "`";
      lit "  - Node: `NODE_OPTIONS=" ++ node_options a ++ lit "`" ] in
  go_table ← (rows ← bucket go_bench "e2ee"; Ok (join nl (map go_row rows)));
  tunnel_table ←
    (rows ← bucket go_bench "tunnel"; Ok (join nl (map go_row rows)));
  handshake_table ←
    (rows ← bucket ts_bench "handshake"; Ok (join nl (map ts_row rows)));
  record_table ←
    (rows ← bucket ts_bench "record"; Ok (join nl (map ts_row rows)));
  yamux_table ←
    (rows ← bucket ts_bench "yamux"; Ok (join nl (map ts_row rows)));
  summary ← get loadgen (lit "summary") (JObj []);
  config ← get loadgen (lit "config") (JObj []);
  latency ← get loadgen (lit "latency") (JObj []);
  resources ← get loadgen (lit "resources") (JObj []);
  latency_rows ← map_result (latency_row float_of_str latency) stages;
  let latency_table := join nl latency_rows in
  config_rows ← for_each (config_row repr_other config) [] config_order;
  let config_table := join nl config_rows in
  resources_table ← resources_table int_of_str resources;
  summary_table ← summary_table float_of_str repr_other summary;
  Ok (content run_date env_lines a go_table tunnel_table handshake_table
        record_table yamux_table summary_table config_table latency_table
        resources_table).

(** [main] on the two log files: each is opened and decoded where its
    parser reads it.  The text is decoded before the loop runs; the loop
    has no effect outside its locals, so that an error met while reading
    further on shows in the same way. *)
Definition main_files (a : args) (go_file ts_file : file) (loadgen : json)
  : result str :=
  go_output ← read_text go_file;
  go_bench ← parse_go nd_extra (file_lines go_output);
  ts_output ← read_text ts_file;
  ts_bench ← parse_ts (file_lines ts_output);
  assemble a go_bench ts_bench loadgen.

End Files.

(** A script log as bytes: the bullet [U+00B7] is the two bytes
    [C2 B7]. *)
Definition yamux_log_bytes : list N :=
  lit " > yamux" ++ nl
  ++ [194; 183] ++ lit " open 2,000.25 0.1 0.2 0.4999 0.3" ++ nl.

(** * Properties of the parsers *)

(** Replace the literals of the goal by their code points. *)
Ltac eval_lit :=
  repeat match goal with
  | |- context [lit ?s] =>
      let v := eval vm_compute in (lit s) in change (lit s) with v
  end.

Section ParserFacts.

Variable nd : N -> bool.

Lemma bind_ok {A B} (m : result A) (f : A -> result B) (b : B) :
  (m ≫= f) = Ok b -> exists a, m = Ok a /\ f a = Ok b.
Proof. destruct m as [a|e]; simpl; [eauto | discriminate]. Qed.

Lemma bind_Ok {A B} (a : A) (f : A -> result B) : (Ok a ≫= f) = f a.
Proof. reflexivity. Qed.

Lemma for_each_cons {S A} (body : S -> A -> result S) st x l :
  for_each body st (x :: l) = body st x ≫= fun st' => for_each body st' l.
Proof. reflexivity. Qed.

Lemma greedy_some {A} (p : N -> bool) (k : str -> str -> option A) s :
  forall taken r, greedy p k taken s = Some r ->
    exists more rest, more <> [] /\ s = more ++ rest /\
      Forall (fun c => p c = true) more /\ k (taken ++ more) rest = Some r.
Proof.
  induction s as [|c s IH]; intros taken r H; simpl in H; [discriminate|].
  destruct (p c) eqn:Hc; [|discriminate].
  destruct (greedy p k (taken ++ [c]) s) as [r'|] eqn:Hg.
  - injection H as ->.
    destruct (IH _ _ Hg) as (more & rest & _ & -> & Hall & Hk).
    exists (c :: more), rest. rewrite <- app_assoc in Hk.
    repeat split; auto; try discriminate.
  - exists [c], s. repeat split; auto; try discriminate.
Qed.

Lemma run_groups_length p :
  forall groups cur pre s r,
    run nd p groups cur pre s = Some r ->
    length r = (length groups + closes p)%nat.
Proof.
  induction p as [|it p IH]; intros groups cur pre s r H; simpl in H.
  - injection H as <-. simpl. lia.
  - destruct it; simpl.
    + destruct pre; [eauto | discriminate].
    + destruct (at_end s); [eauto | discriminate].
    + eauto.
    + destruct cur; [|discriminate]. apply IH in H.
      rewrite length_app in H. simpl in H. lia.
    + destruct (startswith s s0); [eauto | discriminate].
    + apply greedy_some in H as (more & rest & _ & _ & _ & H). eauto.
Qed.

Lemma bench_re_groups s r :
  re_match nd bench_re s = Some r -> exists a b c d, r = [a; b; c; d].
Proof.
  intros H. apply run_groups_length in H. simpl in H.
  destruct r as [|a [|b [|c [|d [|? ?]]]]]; try discriminate. eauto.
Qed.

(** *** One step of each loop *)

Lemma append_e2ee e t x :
  append "e2ee" x (go_out e t) = Ok (go_out (e ++ [x]) t).
Proof.
  reflexivity.
Qed.

Lemma append_tunnel e t x :
  append "tunnel" x (go_out e t) = Ok (go_out e (t ++ [x])).
Proof.
  reflexivity.
Qed.

Lemma startswith_cons b s a p :
  startswith (b :: s) (a :: p) = (a =? b) && startswith s p.
Proof. reflexivity. Qed.

Lemma suffixes_exclusive pkg :
  endswith pkg (lit "/crypto/e2ee") = true ->
  endswith pkg (lit "/tunnel/server") = false.
Proof.
  unfold endswith. eval_lit. destruct (rev pkg) as [|c r]; [discriminate|].
  cbn [rev app]. rewrite !startswith_cons.
  destruct (N.eqb_spec 101 c) as [<-|]; [reflexivity | discriminate].
Qed.

Lemma parse_go_line_routes pkg e t line :
  parse_go_line nd (pkg, go_out e t) line =
  Ok (next_pkg pkg line,
      go_out (e ++ routed (lit "/crypto/e2ee") (go_new nd pkg line))
             (t ++ routed (lit "/tunnel/server") (go_new nd pkg line))).
Proof.
  unfold parse_go_line, next_pkg, go_new, bench_record.
  destruct (startswith (strip line) (lit "pkg:")).
  - unfold routed; simpl. rewrite !app_nil_r.
    destruct (split (strip line)) as [|a [|b l]]; reflexivity.
  - destruct (re_match nd bench_re (strip line)) as [g|] eqn:Hm.
    + destruct (bench_re_groups _ _ Hm) as (a & b & c & d & ->).
      unfold routed; simpl.
      destruct (endswith pkg (lit "/crypto/e2ee")) eqn:He.
      * rewrite (suffixes_exclusive _ He). simpl.
        rewrite append_e2ee. simpl. by rewrite app_nil_r.
      * destruct (endswith pkg (lit "/tunnel/server")); simpl.
        -- rewrite append_tunnel. simpl. by rewrite app_nil_r.
        -- by rewrite !app_nil_r.
    + unfold routed; simpl. by rewrite !app_nil_r.
Qed.

Lemma routed_app suffix l1 l2 :
  routed suffix (l1 ++ l2) = routed suffix l1 ++ routed suffix l2.
Proof. unfold routed. by rewrite List.filter_app, map_app. Qed.

Lemma parse_go_loop f :
  forall pkg e t, exists pkg',
    for_each (parse_go_line nd) (pkg, go_out e t) f =
    Ok (pkg',
        go_out (e ++ routed (lit "/crypto/e2ee") (go_records nd pkg f))
               (t ++ routed (lit "/tunnel/server") (go_records nd pkg f))).
Proof.
  induction f as [|line f IH]; intros pkg e t.
  - exists pkg. unfold routed; simpl. by rewrite !app_nil_r.
  - rewrite for_each_cons, parse_go_line_routes, bind_Ok.
    cbn [go_records]. fold (go_new nd pkg line).
    destruct (IH (next_pkg pkg line)
                 (e ++ routed (lit "/crypto/e2ee") (go_new nd pkg line))
                 (t ++ routed (lit "/tunnel/server") (go_new nd pkg line)))
      as [pkg' ->].
    exists pkg'. by rewrite !routed_app, !app_assoc.
Qed.

(** [parse_go] never raises, and its two buckets are the records routed by
    the two suffixes. *)
Lemma parse_go_buckets f :
  parse_go nd f =
  Ok (go_out (routed (lit "/crypto/e2ee") (go_records nd [] f))
             (routed (lit "/tunnel/server") (go_records nd [] f))).
Proof.
  unfold parse_go. destruct (parse_go_loop f [] [] []) as [pkg' H].
  change go_init with (go_out [] []). rewrite H. reflexivity.
Qed.

Lemma marker_valid line : valid_section (marker line).
Proof.
  unfold marker, valid_section.
  repeat (match goal with |- context [if ?c then _ else _] => destruct c end);
    auto.
Qed.

Lemma parse_ts_line_routes section h r y line :
  valid_section section ->
  parse_ts_line (section, ts_out h r y) line =
  Ok (ts_next section line,
      ts_out (h ++ in_section "handshake" (ts_new section line))
             (r ++ in_section "record" (ts_new section line))
             (y ++ in_section "yamux" (ts_new section line))).
Proof.
  intros Hv. unfold parse_ts_line, ts_next, ts_new, marker.
  destruct (contains line (lit "> e2ee handshake"));
    [unfold in_section; simpl; by rewrite !app_nil_r|].
  destruct (contains line (lit "> e2ee record"));
    [unfold in_section; simpl; by rewrite !app_nil_r|].
  destruct (contains line (lit "> yamux"));
    [unfold in_section; simpl; by rewrite !app_nil_r|].
  unfold bullet_row.
  destruct (startswith (strip line) [bullet]);
    [|destruct section; unfold in_section; simpl; by rewrite !app_nil_r].
  destruct section as [sec|];
    [|unfold in_section; simpl; by rewrite !app_nil_r].
  destruct (split (remove_char bullet (strip line)))
    as [|f0 [|f1 [|f2 [|f3 [|f4 l]]]]];
    try (unfold in_section; simpl; by rewrite !app_nil_r).
  rewrite bool_decide_eq_false_2 by (simpl; lia).
  destruct Hv as [?|[?|[?|?]]]; simplify_eq;
    unfold in_section; simpl; rewrite ?app_nil_r; reflexivity.
Qed.


Lemma ts_records_cons section line f :
  ts_records section (line :: f) =
  ts_new section line ++ ts_records (ts_next section line) f.
Proof.
  unfold ts_new, ts_next. simpl. destruct (marker line); [reflexivity|].
  destruct section; [|reflexivity]. by destruct (bullet_row line).
Qed.

Lemma ts_next_valid section line :
  valid_section section -> valid_section (ts_next section line).
Proof.
  intros Hv. unfold ts_next. pose proof (marker_valid line) as Hm.
  by destruct (marker line).
Qed.

Lemma in_section_app sec l1 l2 :
  in_section sec (l1 ++ l2) = in_section sec l1 ++ in_section sec l2.
Proof. unfold in_section. by rewrite List.filter_app, map_app. Qed.

Lemma parse_ts_loop f :
  forall section h r y, valid_section section -> exists section',
    for_each parse_ts_line (section, ts_out h r y) f =
    Ok (section',
        ts_out (h ++ in_section "handshake" (ts_records section f))
               (r ++ in_section "record" (ts_records section f))
               (y ++ in_section "yamux" (ts_records section f))).
Proof.
  induction f as [|line f IH]; intros section h r y Hv.
  - exists section. unfold in_section; simpl. by rewrite !app_nil_r.
  - rewrite for_each_cons, parse_ts_line_routes, bind_Ok by done.
    rewrite ts_records_cons.
    edestruct IH as [section' ->]; [by apply ts_next_valid|].
    exists section'. by rewrite !in_section_app, !app_assoc.
Qed.

(** [parse_ts] never raises, and its three buckets are the records of the
    three sections. *)
Lemma parse_ts_buckets f :
  parse_ts f =
  Ok (ts_out (in_section "handshake" (ts_records None f))
             (in_section "record" (ts_records None f))
             (in_section "yamux" (ts_records None f))).
Proof.
  unfold parse_ts.
  destruct (parse_ts_loop f None [] [] []) as [section' H]; [by left|].
  change ts_init with (ts_out [] [] []). rewrite H. reflexivity.
Qed.

(** *** Lines that are skipped *)

Lemma go_records_skip f :
  forall pkg,
    go_records nd pkg (List.filter (go_line_matches nd) f) =
    go_records nd pkg f.
Proof.
  induction f as [|line f IH]; intros pkg; [reflexivity|].
  cbn [List.filter go_records].
  destruct (go_line_matches nd line) eqn:Hs.
  - cbn [go_records]. by rewrite IH.
  - rewrite IH. unfold go_line_matches in Hs.
    apply orb_false_elim in Hs as [Hp Hm].
    apply bool_decide_eq_false in Hm.
    unfold bench_record, next_pkg. rewrite Hp.
    destruct (re_match nd bench_re (strip line)); [by destruct Hm|done].
Qed.

Lemma ts_records_skip f :
  forall section,
    ts_records section (List.filter ts_line_matches f) =
    ts_records section f.
Proof.
  induction f as [|line f IH]; intros section; [reflexivity|].
  cbn [List.filter].
  destruct (ts_line_matches line) eqn:Hs.
  - rewrite !ts_records_cons. by rewrite IH.
  - rewrite IH. unfold ts_line_matches in Hs.
    apply orb_false_elim in Hs as [Hm Hb].
    apply bool_decide_eq_false in Hm, Hb.
    cbn [ts_records].
    destruct (marker line); [by destruct Hm|].
    destruct (bullet_row line); [by destruct Hb|]. by destruct section.
Qed.

(** *** Order of the records *)

Lemma go_records_snd f :
  forall pkg, map snd (go_records nd pkg f) = omap (bench_record nd) f.
Proof.
  induction f as [|line f IH]; intros pkg; [reflexivity|].
  cbn [go_records omap list_omap]. rewrite map_app, IH.
  by destruct (bench_record nd line).
Qed.

Lemma ts_records_snd f :
  forall section,
    map snd (ts_records section f) `sublist_of` omap bullet_row f.
Proof.
  induction f as [|line f IH]; intros section; [constructor|].
  cbn [ts_records omap list_omap].
  destruct (marker line).
  - destruct (bullet_row line); [apply sublist_cons|]; apply IH.
  - destruct section, (bullet_row line); cbn [map snd];
      try apply sublist_skip; try apply sublist_cons; apply IH.
Qed.

Lemma filter_snd_sublist {A B} (p : A * B -> bool) l :
  map snd (List.filter p l) `sublist_of` map snd l.
Proof.
  induction l as [|x l IH]; [constructor|]. cbn [List.filter map].
  destruct (p x); [by apply sublist_skip | by apply sublist_cons].
Qed.

(** *** What a match of [bench_re] looks like *)

Lemma startswith_app s l :
  startswith s l = true -> s = l ++ drop (length l) s.
Proof.
  revert s. induction l as [|a l IH]; intros [|b s] H; try done.
  rewrite startswith_cons in H. apply andb_prop in H as [Hab Hs].
  apply N.eqb_eq in Hab as ->. cbn [length drop app]. f_equal. by apply IH.
Qed.

Lemma startswith_prefix l s : startswith (l ++ s) l = true.
Proof.
  induction l as [|a l IH]; [by destruct s|].
  cbn [app]. by rewrite startswith_cons, N.eqb_refl.
Qed.

Lemma run_plus c p groups cur pre s r :
  run nd (Plus c :: p) groups cur pre s = Some r ->
  exists more rest,
    s = more ++ rest /\ more <> [] /\
    Forall (fun x => in_cls nd c x = true) more /\
    run nd p groups (grow cur more) (pre ++ more) rest = Some r.
Proof.
  cbn [run]. intros H.
  apply greedy_some in H as (more & rest & Hne & -> & Hall & H).
  by exists more, rest.
Qed.

Lemma run_lit l p groups cur pre s r :
  run nd (Lit l :: p) groups cur pre s = Some r ->
  exists rest,
    s = l ++ rest /\ run nd p groups (grow cur l) (pre ++ l) rest = Some r.
Proof.
  cbn [run]. destruct (startswith s l) eqn:Hs; [|discriminate]. intros H.
  exists (drop (length l) s). split; [by apply startswith_app | done].
Qed.

Lemma run_eol p groups cur pre s r :
  run nd (Eol :: p) groups cur pre s = Some r ->
  at_end s = true /\ run nd p groups cur pre s = Some r.
Proof. cbn [run]. by destruct (at_end s). Qed.

Lemma run_bol p groups cur s :
  run nd (Bol :: p) groups cur [] s = run nd p groups cur [] s.
Proof. reflexivity. Qed.

Lemma run_open p groups cur pre s :
  run nd (Open :: p) groups cur pre s = run nd p groups (Some []) pre s.
Proof. reflexivity. Qed.

Lemma run_close p groups g pre s :
  run nd (Close :: p) groups (Some g) pre s
  = run nd p (groups ++ [g]) None pre s.
Proof. reflexivity. Qed.

(** A line that [bench_re] matches is the four captured strings in this
    order, the first one at the start, with the iteration count, the units
    and white space between them, and nothing after the last unit except
    possibly a final newline. *)
Lemma bench_re_match_shape s name ns b al :
  re_match nd bench_re s = Some [name; ns; b; al] ->
  exists w1 iters w2 w3 w4 tail,
    s = name ++ w1 ++ iters ++ w2 ++ ns ++ lit " ns/op" ++ w3 ++ b
        ++ lit " B/op" ++ w4 ++ al ++ lit " allocs/op" ++ tail
    /\ at_end tail = true
    /\ startswith name (lit "Benchmark") = true
    /\ Forall (fun c => isspace c = false) name
    /\ Forall (fun c => in_cls nd NumChar c = true) (ns ++ b)
    /\ Forall (fun c => isdigit nd c = true) (iters ++ al)
    /\ Forall (fun c => isspace c = true) (w1 ++ w2 ++ w3 ++ w4)
    /\ name <> [] /\ ns <> [] /\ b <> [] /\ al <> [].
Proof.
  unfold re_match, bench_re. rewrite run_bol, run_open. intros H.
  apply run_lit in H as (s1 & -> & H).
  apply run_plus in H as (g1 & s2 & -> & Hg1 & Hc1 & H).
  cbn [grow] in H. rewrite run_close in H.
  apply run_plus in H as (w1 & s3 & -> & _ & Hw1 & H).
  apply run_plus in H as (it & s4 & -> & _ & Hit & H).
  apply run_plus in H as (w2 & s5 & -> & _ & Hw2 & H).
  cbn [grow] in H. rewrite run_open in H.
  apply run_plus in H as (g2 & s6 & -> & Hg2 & Hc2 & H).
  cbn [grow] in H. rewrite run_close in H.
  apply run_lit in H as (s7 & -> & H).
  apply run_plus in H as (w3 & s8 & -> & _ & Hw3 & H).
  cbn [grow] in H. rewrite run_open in H.
  apply run_plus in H as (g3 & s9 & -> & Hg3 & Hc3 & H).
  cbn [grow] in H. rewrite run_close in H.
  apply run_lit in H as (s10 & -> & H).
  apply run_plus in H as (w4 & s11 & -> & _ & Hw4 & H).
  cbn [grow] in H. rewrite run_open in H.
  apply run_plus in H as (g4 & s12 & -> & Hg4 & Hc4 & H).
  cbn [grow] in H. rewrite run_close in H.
  apply run_lit in H as (s13 & -> & H).
  apply run_eol in H as (Hend & H). cbn [run app] in H.
  simplify_eq. exists w1, it, w2, w3, w4, s13.
  split; [by rewrite <- !app_assoc|]. split; [done|].
  split; [apply startswith_prefix|].
  split.
  { apply Forall_app. split.
    - eval_lit. repeat constructor.
    - eapply Forall_impl; [exact Hc1|]. cbn. intros c Hc.
      by apply negb_true_iff. }
  split; [by apply Forall_app|]. split; [by apply Forall_app|].
  split; [by rewrite !Forall_app|].
  repeat split; done.
Qed.

End ParserFacts.

(** * The claims about the parsers *)

(** C1, as stated, fails: a package path that ends in [/e2ee] without
    ending in [/crypto/e2ee] sends its record to no bucket. *)
Lemma last_segment_e2ee_not_routed :
  endswith (lit "example.com/other/e2ee") (lit "/e2ee") = true /\
  go_records ascii_digits [] (file_lines other_e2ee_log) =
    [(lit "example.com/other/e2ee", seal_item)] /\
  parse_go ascii_digits (file_lines other_e2ee_log) = Ok (go_out [] []).
Proof. repeat split; vm_compute; reflexivity. Qed.

(** C1 (amended): for every log, [parse_go] puts each record of a line that
    matches the record pattern in the bucket chosen by the suffix of the
    package current at that line: the e2ee bucket holds, in order, exactly
    the records whose package ends with [/crypto/e2ee], the tunnel bucket
    exactly those whose package ends with [/tunnel/server]; no package
    ends with both, and a record whose package ends with neither is in no
    bucket. *)
Theorem parse_go_routes_by_suffix (nd : N -> bool) (f : list str) :
  parse_go nd f =
    Ok (go_out (routed (lit "/crypto/e2ee") (go_records nd [] f))
               (routed (lit "/tunnel/server") (go_records nd [] f)))
  /\ forall pkg : str,
       endswith pkg (lit "/crypto/e2ee")
       && endswith pkg (lit "/tunnel/server") = false.
Proof.
  split; [apply parse_go_buckets|]. intros pkg.
  destruct (endswith pkg (lit "/crypto/e2ee")) eqn:He; [|reflexivity].
  by rewrite suffixes_exclusive.
Qed.

(** C5: on every sequence of lines both parsers return a result and raise
    nothing, and the lines that match no pattern are skipped: deleting
    them from the input changes nothing. *)
Theorem parsers_never_raise (nd : N -> bool) (f : list str) :
  (exists out, parse_go nd f = Ok out)
  /\ parse_go nd (List.filter (go_line_matches nd) f) = parse_go nd f
  /\ (exists out, parse_ts f = Ok out)
  /\ parse_ts (List.filter ts_line_matches f) = parse_ts f.
Proof.
  repeat split.
  - rewrite parse_go_buckets. eauto.
  - by rewrite !parse_go_buckets, go_records_skip.
  - rewrite parse_ts_buckets. eauto.
  - by rewrite !parse_ts_buckets, ts_records_skip.
Qed.

Lemma go_records_no_pkg nd suffix f :
  endswith [] suffix = false ->
  forallb (fun line => negb (startswith (strip line) (lit "pkg:"))) f = true ->
  routed suffix (go_records nd [] f) = [].
Proof.
  intros Hs. induction f as [|line f IH]; intros H; [reflexivity|].
  cbn [forallb] in H. apply andb_prop in H as [Hl Hf].
  apply negb_true_iff in Hl. cbn [go_records].
  unfold next_pkg. rewrite Hl, routed_app, IH, app_nil_r by done.
  destruct (bench_record nd line); [|reflexivity].
  unfold routed. cbn [List.filter fst]. by rewrite Hs.
Qed.

(** C6: a log in which no line is a package declaration gives two empty
    buckets, however many of its lines match the record pattern. *)
Theorem no_pkg_line_empty_buckets (nd : N -> bool) (f : list str) :
  forallb (fun line => negb (startswith (strip line) (lit "pkg:"))) f = true ->
  parse_go nd f = Ok (go_out [] []).
Proof.
  intros H. rewrite parse_go_buckets.
  by rewrite !go_records_no_pkg.
Qed.

Lemma no_pkg_line_empty_buckets_witness :
  forallb (fun line => negb (startswith (strip line) (lit "pkg:")))
    (file_lines no_pkg_log) = true
  /\ omap (bench_record ascii_digits) (file_lines no_pkg_log)
     = [seal_item; seal_item]
  /\ parse_go ascii_digits (file_lines no_pkg_log) = Ok (go_out [] []).
Proof.
  split; [reflexivity|]. split; [reflexivity|].
  apply no_pkg_line_empty_buckets. reflexivity.
Defined.

Lemma ts_records_app l1 :
  forall section l2,
    ts_records section (l1 ++ l2) =
    ts_records section l1 ++ ts_records (section_after section l1) l2.
Proof.
  induction l1 as [|line l1 IH]; intros section l2; [reflexivity|].
  rewrite <- app_comm_cons, !ts_records_cons, IH. by rewrite app_assoc.
Qed.

Lemma ts_records_no_marker pre :
  forallb (fun line => bool_decide (marker line = None)) pre = true ->
  ts_records None pre = [] /\ section_after None pre = None.
Proof.
  induction pre as [|line pre IH]; intros H; [done|].
  cbn [forallb] in H. apply andb_prop in H as [Hl Hp].
  apply bool_decide_eq_true in Hl. destruct (IH Hp) as [IH1 IH2].
  unfold section_after in *. cbn [ts_records fold_left]. unfold ts_next.
  rewrite Hl. by split.
Qed.

(** C7: the three buckets of [parse_ts] hold, in order, the qualifying
    bullet rows that follow a marker of their section with no other marker
    in between.  A marker line sets the section for the rows after it,
    also in the middle of a file; a qualifying row is added under the
    section current at its line; the rows before the first marker add
    nothing. *)
Theorem parse_ts_follows_sections (f : list str) :
  parse_ts f =
    Ok (ts_out (in_section "handshake" (ts_records None f))
               (in_section "record" (ts_records None f))
               (in_section "yamux" (ts_records None f)))
  /\ (forall section pre line post sec,
        marker line = Some sec ->
        ts_records section (pre ++ line :: post) =
        ts_records section pre ++ ts_records (Some sec) post)
  /\ (forall sec line r post,
        marker line = None -> bullet_row line = Some r ->
        ts_records (Some sec) (line :: post) =
        (sec, r) :: ts_records (Some sec) post)
  /\ (forall pre post,
        forallb (fun line => bool_decide (marker line = None)) pre = true ->
        parse_ts (pre ++ post) = parse_ts post).
Proof.
  split; [apply parse_ts_buckets|]. split; [|split].
  - intros section pre line post sec Hm.
    rewrite ts_records_app. cbn [ts_records]. by rewrite Hm.
  - intros sec line r post Hm Hb. cbn [ts_records]. by rewrite Hm, Hb.
  - intros pre post Hpre. rewrite !parse_ts_buckets, ts_records_app.
    destruct (ts_records_no_marker pre Hpre) as [-> ->]. reflexivity.
Qed.

Lemma parse_ts_follows_sections_witness :
  parse_ts (file_lines ts_log) =
    Ok (ts_out [TsItem (lit "init") (lit "100.5") (lit "9.95")] []
               [TsItem (lit "open") (lit "2,000.25") (lit "0.4999")])
  /\ marker (lit " > yamux" ++ nl) = Some "yamux"
  /\ ts_records (Some "handshake")
       (take 4 (file_lines ts_log) ++ (lit " > yamux" ++ nl)
        :: drop 5 (file_lines ts_log)) =
     ts_records (Some "handshake") (take 4 (file_lines ts_log))
     ++ ts_records (Some "yamux") (drop 5 (file_lines ts_log))
  /\ forallb (fun line => bool_decide (marker line = None))
       (take 1 (file_lines ts_log)) = true
  /\ parse_ts (take 1 (file_lines ts_log) ++ drop 1 (file_lines ts_log)) =
     parse_ts (drop 1 (file_lines ts_log)).
Proof.
  destruct (parse_ts_follows_sections (file_lines ts_log))
    as (H1 & H2 & _ & H4).
  split; [rewrite H1; vm_compute; reflexivity|].
  split; [vm_compute; reflexivity|].
  split; [apply H2; vm_compute; reflexivity|].
  split; [vm_compute; reflexivity|].
  apply H4. vm_compute; reflexivity.
Defined.

Lemma routed_sublist nd suffix f :
  routed suffix (go_records nd [] f) `sublist_of` omap (bench_record nd) f.
Proof.
  rewrite <- (go_records_snd nd f []). apply filter_snd_sublist.
Qed.

Lemma in_section_sublist sec f :
  in_section sec (ts_records None f) `sublist_of` omap bullet_row f.
Proof.
  etrans; [apply filter_snd_sublist | apply ts_records_snd].
Qed.

(** C9: on every input each parser returns a dictionary with exactly its
    fixed keys ([e2ee] and [tunnel]; [handshake], [record] and [yamux]),
    each bound to a list, empty when nothing was routed to it, and each
    list keeps the order of the text: it is a subsequence of the records
    of the lines in line order. *)
Theorem parsers_fixed_keys_in_order (nd : N -> bool) (f : list str) :
  (exists out e t,
      parse_go nd f = Ok out
      /\ dom out = ({["e2ee"; "tunnel"]} : gset string)
      /\ out !! "e2ee" = Some e /\ out !! "tunnel" = Some t
      /\ e `sublist_of` omap (bench_record nd) f
      /\ t `sublist_of` omap (bench_record nd) f)
  /\ (exists out h r y,
      parse_ts f = Ok out
      /\ dom out = ({["handshake"; "record"; "yamux"]} : gset string)
      /\ out !! "handshake" = Some h /\ out !! "record" = Some r
      /\ out !! "yamux" = Some y
      /\ h `sublist_of` omap bullet_row f
      /\ r `sublist_of` omap bullet_row f
      /\ y `sublist_of` omap bullet_row f).
Proof.
  split.
  - eexists _, _, _. split; [apply parse_go_buckets|].
    split; [unfold go_out; rewrite !dom_insert_L, dom_empty_L; set_solver|].
    split; [reflexivity|]. split; [reflexivity|].
    split; apply routed_sublist.
  - eexists _, _, _, _. split; [apply parse_ts_buckets|].
    split; [unfold ts_out; rewrite !dom_insert_L, dom_empty_L; set_solver|].
    do 3 (split; [reflexivity|]).
    repeat split; apply in_section_sublist.
Qed.

(** C10: a line that contains one of the three markers only sets the
    section: whatever the section and the dictionary before it, the
    dictionary is unchanged after it, also when the trimmed line starts
    with the bullet and has five fields or more. *)
Theorem marker_line_adds_no_record
    (section : option string) (out : gmap string (list ts_item))
    (line : str) :
  contains line (lit "> e2ee handshake")
  || contains line (lit "> e2ee record")
  || contains line (lit "> yamux") = true ->
  exists sec, parse_ts_line (section, out) line = Ok (Some sec, out).
Proof.
  intros H. unfold parse_ts_line.
  destruct (contains line (lit "> e2ee handshake")); [eauto|].
  destruct (contains line (lit "> e2ee record")); [eauto|].
  destruct (contains line (lit "> yamux")); [eauto|discriminate].
Qed.

Lemma marker_line_adds_no_record_witness :
  contains marker_bullet_line (lit "> yamux") = true
  /\ bullet_row marker_bullet_line
     = Some (TsItem (lit ">") (lit "yamux") (lit "2"))
  /\ exists sec,
       parse_ts_line (Some "handshake", ts_out [] [] []) marker_bullet_line
       = Ok (Some sec, ts_out [] [] []).
Proof.
  split; [reflexivity|]. split; [reflexivity|].
  apply marker_line_adds_no_record. reflexivity.
Defined.

(** * The report *)

(** *** Lines joined into text *)

Lemma join_cons sep (r : str) rows :
  rows <> [] -> join sep (r :: rows) = r ++ sep ++ join sep rows.
Proof. by destruct rows. Qed.

Lemma join_app sep (l1 l2 : list str) :
  l1 <> [] -> l2 <> [] ->
  join sep (l1 ++ l2) = join sep l1 ++ sep ++ join sep l2.
Proof.
  intros H1 H2. induction l1 as [|r l1 IH]; [done|].
  destruct l1 as [|r' l1].
  - cbn [app]. by rewrite join_cons.
  - change ((r :: r' :: l1) ++ l2) with (r :: ((r' :: l1) ++ l2)).
    rewrite !join_cons by done. rewrite IH by done.
    by rewrite <- !app_assoc.
Qed.

(** The lines from the [n]-th on, after the line break that ends the
    line before them, are the end of the text. *)
Lemma join_suffix sep (lines : list str) n :
  (0 < n < length lines)%nat ->
  exists pre, join sep lines = pre ++ join sep ([] :: skipn n lines).
Proof.
  intros [Hn Hl].
  assert (firstn n lines <> []) as H1.
  { intros H. apply (f_equal length) in H. rewrite length_firstn in H.
    cbn in H. lia. }
  assert (skipn n lines <> []) as H2.
  { intros H. apply (f_equal length) in H. rewrite length_skipn in H.
    cbn in H. lia. }
  exists (join sep (firstn n lines)).
  rewrite <- (firstn_skipn n lines) at 1.
  rewrite join_app, join_cons by done. reflexivity.
Qed.

(** Consecutive lines, between the line breaks around them, are a segment
    of the text. *)
Lemma join_segment sep (lines : list str) n k :
  (0 < n)%nat -> (0 < k)%nat -> (n + k < length lines)%nat ->
  segment_of (join sep ([] :: firstn k (skipn n lines) ++ [[]]))
    (join sep lines).
Proof.
  intros Hn Hk Hl.
  destruct (join_suffix sep lines n) as [pre Hpre]; [lia|].
  assert (firstn k (skipn n lines) <> []) as H1.
  { intros H. apply (f_equal length) in H.
    rewrite length_firstn, length_skipn in H. cbn in H. lia. }
  assert (skipn k (skipn n lines) <> []) as H2.
  { intros H. apply (f_equal length) in H. rewrite !length_skipn in H.
    cbn in H. lia. }
  exists pre, (join sep (skipn k (skipn n lines))).
  rewrite Hpre. f_equal.
  rewrite <- (firstn_skipn k (skipn n lines)) at 1.
  rewrite !join_cons by (try done; by destruct (firstn k (skipn n lines))).
  rewrite !join_app by done. cbn [join app].
  by rewrite <- !app_assoc.
Qed.

Section ReportFacts.

Variable nd : N -> bool.
Variable float_of_str : str -> option float.
Variable int_of_str : str -> option Z.
Variable repr_other : json -> str.
Variable now : str.

Lemma bucket_go e t :
  bucket (go_out e t) "e2ee" = Ok e /\ bucket (go_out e t) "tunnel" = Ok t.
Proof. split; reflexivity. Qed.

Lemma bucket_ts h r y :
  bucket (ts_out h r y) "handshake" = Ok h
  /\ bucket (ts_out h r y) "record" = Ok r
  /\ bucket (ts_out h r y) "yamux" = Ok y.
Proof. repeat split; reflexivity. Qed.

(** [main] is its stages in sequence, with the tables of the two parsers
    filled in. *)
Lemma main_by_stages a go_output ts_output loadgen :
  main nd float_of_str int_of_str repr_other now a go_output ts_output loadgen
  =
  (x ← ram_stage float_of_str a;
   lt ← latency_stage float_of_str loadgen;
   ct ← config_stage repr_other loadgen;
   rt ← resources_stage int_of_str loadgen;
   st ← summary_stage float_of_str repr_other loadgen;
   Ok (content (report_run_date now a) (report_env_lines a x) a
         (join nl (map go_row (routed (lit "/crypto/e2ee")
            (go_records nd [] (file_lines go_output)))))
         (join nl (map go_row (routed (lit "/tunnel/server")
            (go_records nd [] (file_lines go_output)))))
         (join nl (map ts_row (in_section "handshake"
            (ts_records None (file_lines ts_output)))))
         (join nl (map ts_row (in_section "record"
            (ts_records None (file_lines ts_output)))))
         (join nl (map ts_row (in_section "yamux"
            (ts_records None (file_lines ts_output)))))
         st ct lt rt)).
Proof.
  unfold main, ram_stage, latency_stage, config_stage,
    resources_stage, summary_stage.
  rewrite parse_go_buckets, parse_ts_buckets, !bind_Ok.
  destruct (float_of_str (ram_bytes a)) as [x|]; [|reflexivity].
  rewrite !bind_Ok. cbn [snd].
  destruct (bucket_go (routed (lit "/crypto/e2ee")
              (go_records nd [] (file_lines go_output)))
            (routed (lit "/tunnel/server")
              (go_records nd [] (file_lines go_output)))) as [-> ->].
  destruct (bucket_ts (in_section "handshake"
              (ts_records None (file_lines ts_output)))
            (in_section "record" (ts_records None (file_lines ts_output)))
            (in_section "yamux" (ts_records None (file_lines ts_output))))
    as (-> & -> & ->).
  rewrite !bind_Ok.
  destruct loadgen; try reflexivity.
  unfold get. rewrite !bind_Ok.
  destruct (map_result _ stages); [|reflexivity].
  destruct (for_each _ [] config_order); [|reflexivity].
  destruct (resources_table _ _); [|reflexivity].
  destruct (summary_table _ _ _); reflexivity.
Qed.


Lemma main_ok_inv a go_output ts_output loadgen text :
  main nd float_of_str int_of_str repr_other now a go_output ts_output loadgen
  = Ok text ->
  exists x lt ct rt st,
    ram_stage float_of_str a = Ok x
    /\ latency_stage float_of_str loadgen = Ok lt
    /\ config_stage repr_other loadgen = Ok ct
    /\ resources_stage int_of_str loadgen = Ok rt
    /\ summary_stage float_of_str repr_other loadgen = Ok st
    /\ text =
       content (report_run_date now a) (report_env_lines a x) a
         (join nl (map go_row (routed (lit "/crypto/e2ee")
            (go_records nd [] (file_lines go_output)))))
         (join nl (map go_row (routed (lit "/tunnel/server")
            (go_records nd [] (file_lines go_output)))))
         (join nl (map ts_row (in_section "handshake"
            (ts_records None (file_lines ts_output)))))
         (join nl (map ts_row (in_section "record"
            (ts_records None (file_lines ts_output)))))
         (join nl (map ts_row (in_section "yamux"
            (ts_records None (file_lines ts_output)))))
         st ct lt rt.
Proof.
  rewrite main_by_stages. intros H.
  apply bind_ok in H as (x & Hx & H). apply bind_ok in H as (lt & Hlt & H).
  apply bind_ok in H as (ct & Hct & H). apply bind_ok in H as (rt & Hrt & H).
  apply bind_ok in H as (st & Hst & H). injection H as <-.
  by exists x, lt, ct, rt, st.
Qed.

Lemma empty_doc_stages :
  (exists lt, latency_stage float_of_str (JObj []) = Ok lt)
  /\ (exists ct, config_stage repr_other (JObj []) = Ok ct)
  /\ (exists rt, resources_stage int_of_str (JObj []) = Ok rt)
  /\ (exists st, summary_stage float_of_str repr_other (JObj []) = Ok st).
Proof. repeat split; vm_compute; eauto. Qed.

Lemma seal_log_records go_output :
  map strip (List.filter (go_line_matches nd) (file_lines go_output))
  = [lit "pkg: example.com/crypto/e2ee"; seal_line] ->
  go_records nd [] (file_lines go_output)
  = [(lit "example.com/crypto/e2ee", seal_item)].
Proof.
  intros Hf. rewrite <- go_records_skip.
  destruct (List.filter (go_line_matches nd) (file_lines go_output))
    as [|l1 [|l2 [|l3 rest]]]; try discriminate Hf.
  cbn [map] in Hf. injection Hf as H1 H2.
  cbn [go_records]. unfold bench_record, next_pkg. rewrite H1.
  change (startswith (lit "pkg: example.com/crypto/e2ee") (lit "pkg:"))
    with true.
  change (split (lit "pkg: example.com/crypto/e2ee"))
    with [lit "pkg:"; lit "example.com/crypto/e2ee"].
  cbn iota. rewrite H2. vm_compute. reflexivity.
Qed.

(** C2: take a log whose lines that match a pattern are, once trimmed, the
    line [pkg: example.com/crypto/e2ee] and after it the line
    [BenchmarkSeal 1000000 52.3 ns/op 16 B/op 1 allocs/op].  It parses to
    one e2ee record and no tunnel record; every report that [main] writes
    for it has [| BenchmarkSeal | 52.3 | 16 | 1 |] as the only row under
    the e2ee header and nothing under the tunnel header: the text holds,
    between the heading of the Go benchmarks and the heading of the
    TypeScript benchmarks, the e2ee header lines, that one row, and the
    tunnel header lines followed by an empty body; and [main] does write
    a report for it, whatever the script log, when the document is empty
    and the RAM size is a number. *)
Theorem seal_log_report
    (a : args) (go_output ts_output : str) (loadgen : json) :
  map strip (List.filter (go_line_matches nd) (file_lines go_output))
  = [lit "pkg: example.com/crypto/e2ee"; seal_line] ->
  parse_go nd (file_lines go_output) = Ok (go_out [seal_item] [])
  /\ (forall text,
        main nd float_of_str int_of_str repr_other now a go_output ts_output
          loadgen = Ok text ->
        (exists rd env h r y st ct lt rt,
           text = content rd env a (lit "| BenchmarkSeal | 52.3 | 16 | 1 |")
                    [] h r y st ct lt rt)
        /\ segment_of seal_go_tables text)
  /\ (forall x,
        float_of_str (ram_bytes a) = Some x ->
        exists text,
          main nd float_of_str int_of_str repr_other now a go_output ts_output
            (JObj []) = Ok text).
Proof.
  intros Hf. apply seal_log_records in Hf. split; [|split].
  - rewrite parse_go_buckets, Hf. reflexivity.
  - intros text H.
    apply main_ok_inv in H as (x & lt & ct & rt & st & _ & _ & _ & _ & _ & ->).
    rewrite Hf. split; [eexists _, _, _, _, _, _, _, _, _; reflexivity|].
    unfold content.
    match goal with
    | |- segment_of _ (join _ ?lines) =>
        exact (join_segment nl lines 21 15 ltac:(lia) ltac:(lia)
                 ltac:(cbn [length]; lia))
    end.
  - intros x Hx. rewrite main_by_stages. unfold ram_stage. rewrite Hx, bind_Ok.
    destruct empty_doc_stages
      as ([lt ->] & [ct ->] & [rt ->] & [st ->]).
    rewrite !bind_Ok. eauto.
Qed.

(** *** Where the records come from *)

Lemma go_records_from_line f :
  forall pkg0 pkg r,
    (pkg, r) ∈ go_records nd pkg0 f ->
    exists line, line ∈ f /\ bench_record nd line = Some r.
Proof.
  induction f as [|line f IH]; intros pkg0 pkg r H; cbn [go_records] in H.
  - by apply elem_of_nil in H.
  - apply elem_of_app in H as [H|H].
    + destruct (bench_record nd line) as [r'|] eqn:Hb;
        [|by apply elem_of_nil in H].
      apply list_elem_of_singleton in H. injection H as _ ->.
      exists line. split; [left | done].
    + destruct (IH _ _ _ H) as (l & Hl & Hr). exists l. split; [by right|done].
Qed.

Lemma routed_from_line suffix f r :
  r ∈ routed suffix (go_records nd [] f) ->
  exists line, line ∈ f /\
    re_match nd bench_re (strip line)
    = Some [go_name r; ns_op r; b_op r; allocs r].
Proof.
  unfold routed. intros H. apply list_elem_of_fmap in H as ([pkg r'] & -> & H).
  apply list_elem_of_In, List.filter_In in H as [H _].
  apply list_elem_of_In, go_records_from_line in H as (line & Hl & Hb).
  exists line. split; [done|]. unfold bench_record in Hb.
  destruct (startswith (strip line) (lit "pkg:")); [discriminate|].
  destruct (re_match nd bench_re (strip line)) as [g|] eqn:Hm; [|discriminate].
  destruct (bench_re_groups _ _ _ Hm) as (n & ns & b & al & ->).
  by injection Hb as <-.
Qed.

Lemma ts_records_from_line f :
  forall section sec r,
    (sec, r) ∈ ts_records section f ->
    exists line, line ∈ f /\ bullet_row line = Some r.
Proof.
  induction f as [|line f IH]; intros section sec r H; cbn [ts_records] in H.
  - by apply elem_of_nil in H.
  - destruct (marker line).
    + destruct (IH _ _ _ H) as (l & Hl & Hr). exists l. split; [by right|done].
    + destruct section as [s0|], (bullet_row line) as [r0|] eqn:Hb;
        try (destruct (IH _ _ _ H) as (l & Hl & Hr); exists l;
             split; [by right|done]).
      apply elem_of_cons in H as [H|H].
      * injection H as _ ->. exists line. split; [left|done].
      * destruct (IH _ _ _ H) as (l & Hl & Hr). exists l.
        split; [by right|done].
Qed.

Lemma in_section_from_line sec f r :
  r ∈ in_section sec (ts_records None f) ->
  exists line fields, line ∈ f
    /\ split (remove_char bullet (strip line)) = fields
    /\ fields !! 0%nat = Some (ts_name r)
    /\ fields !! 1%nat = Some (hz r)
    /\ fields !! 4%nat = Some (mean_ms r).
Proof.
  unfold in_section. intros H.
  apply list_elem_of_fmap in H as ([s0 r'] & -> & H).
  apply list_elem_of_In, List.filter_In in H as [H _].
  apply list_elem_of_In, ts_records_from_line in H as (line & Hl & Hb).
  exists line, (split (remove_char bullet (strip line))).
  split; [done|]. split; [done|]. unfold bullet_row in Hb.
  destruct (startswith (strip line) [bullet]); [|discriminate].
  destruct (split (remove_char bullet (strip line)))
    as [|f0 [|f1 [|f2 [|f3 [|f4 l]]]]]; try discriminate.
  by injection Hb as <-.
Qed.



(** C8: for a document that is an object without the [resources] key,
    whatever else it holds, the resources table is computed without an
    error and is the four rows of the fixed counters, each with the value
    [0].  When the RAM size is a number and the latency, config and
    summary tables of the document are computed without an error, [main]
    raises no error and returns the report with these four rows as its
    resources table; and every report that [main] returns for such a
    document ends with the heading of the resources, the two header
    lines and these four rows. *)
Theorem missing_resources_renders_zeros (members : list (str * json)) :
  member (lit "resources") members = None ->
  resources_stage int_of_str (JObj members) =
    Ok (join nl [ lit "| max_heap_alloc_bytes | 0 |";
                  lit "| max_heap_inuse_bytes | 0 |";
                  lit "| max_sys_bytes | 0 |";
                  lit "| max_goroutines | 0 |" ])
  /\ (forall a go_output ts_output x lt ct st,
       ram_stage float_of_str a = Ok x ->
       latency_stage float_of_str (JObj members) = Ok lt ->
       config_stage repr_other (JObj members) = Ok ct ->
       summary_stage float_of_str repr_other (JObj members) = Ok st ->
       exists g t h r y,
         main nd float_of_str int_of_str repr_other now a go_output ts_output
           (JObj members) =
         Ok (content (report_run_date now a) (report_env_lines a x) a
               g t h r y st ct lt
               (join nl [ lit "| max_heap_alloc_bytes | 0 |";
                          lit "| max_heap_inuse_bytes | 0 |";
                          lit "| max_sys_bytes | 0 |";
                          lit "| max_goroutines | 0 |" ])))
  /\ (forall a go_output ts_output text,
       main nd float_of_str int_of_str repr_other now a go_output ts_output
         (JObj members) = Ok text ->
       exists pre, text = pre ++ zero_resources_section).
Proof.
  intros Hm.
  assert (resources_stage int_of_str (JObj members) =
    Ok (join nl [ lit "| max_heap_alloc_bytes | 0 |";
                  lit "| max_heap_inuse_bytes | 0 |";
                  lit "| max_sys_bytes | 0 |";
                  lit "| max_goroutines | 0 |" ])) as Hr.
  { unfold resources_stage, get. rewrite Hm. reflexivity. }
  split; [exact Hr|]. split.
  - intros a go_output ts_output x lt ct st Hx Hlt Hct Hst.
    rewrite main_by_stages, Hx, Hlt, Hct, Hr, Hst, !bind_Ok.
    eexists _, _, _, _, _. reflexivity.
  - intros a go_output ts_output text H.
    apply main_ok_inv in H
      as (x & lt & ct & rt & st & _ & _ & _ & Hrt & _ & ->).
    rewrite Hr in Hrt. injection Hrt as <-.
    unfold content.
    match goal with
    | |- exists pre, join _ ?lines = _ =>
        destruct (join_suffix nl lines 75 ltac:(cbn [length]; lia))
          as [pre Hpre]
    end.
    exists pre. rewrite Hpre. reflexivity.
Qed.

End ReportFacts.

Lemma seal_log_report_witness :
  map strip (List.filter (go_line_matches ascii_digits)
               (file_lines noisy_seal_log))
  = [lit "pkg: example.com/crypto/e2ee"; seal_line]
  /\ map strip (List.filter (go_line_matches ascii_digits)
                  (file_lines seal_log))
     = [lit "pkg: example.com/crypto/e2ee"; seal_line]
  /\ exists text,
       main ascii_digits sample_float_of_str sample_int_of_str sample_repr
         sample_now sample_args noisy_seal_log ts_log (JObj []) = Ok text
       /\ (exists rd env h r y st ct lt rt,
             text = content rd env sample_args
                      (lit "| BenchmarkSeal | 52.3 | 16 | 1 |") []
                      h r y st ct lt rt)
       /\ segment_of seal_go_tables text.
Proof.
  split; [vm_compute; reflexivity|]. split; [vm_compute; reflexivity|].
  destruct (seal_log_report ascii_digits sample_float_of_str
              sample_int_of_str sample_repr sample_now sample_args
              noisy_seal_log ts_log (JObj []))
    as (_ & Hrow & Hruns); [vm_compute; reflexivity|].
  destruct (Hruns (binary_normalize 53 1024 17179869184 0 false) eq_refl)
    as [text Htext].
  exists text. split; [exact Htext|]. apply Hrow. exact Htext.
Defined.


Lemma missing_resources_renders_zeros_witness :
  member (lit "resources") no_resources_members = None
  /\ exists text,
       main ascii_digits sample_float_of_str sample_int_of_str sample_repr
         sample_now sample_args seal_log ts_log no_resources_doc = Ok text
       /\ exists pre, text = pre ++ zero_resources_section.
Proof.
  split; [reflexivity|].
  destruct (missing_resources_renders_zeros ascii_digits sample_float_of_str
              sample_int_of_str sample_repr sample_now no_resources_members
              eq_refl) as (_ & H & Hend).
  edestruct (H sample_args seal_log ts_log) as (g & t & h & r & y & Hmain);
    [vm_compute; reflexivity ..|].
  eexists. split; [exact Hmain|]. exact (Hend _ _ _ _ Hmain).
Defined.

(** A document without the [resources] key for which no report is
    assembled: its config is [null], and [main] raises [TypeError] at the
    membership test of the first config key, although the RAM size is a
    number and the logs are well formed. *)
Lemma null_config_without_resources_raises :
  member (lit "resources") null_config_members = None
  /\ ram_stage sample_float_of_str sample_args
     = Ok (binary_normalize 53 1024 17179869184 0 false)
  /\ resources_stage sample_int_of_str (JObj null_config_members)
     = Ok (join nl [ lit "| max_heap_alloc_bytes | 0 |";
                     lit "| max_heap_inuse_bytes | 0 |";
                     lit "| max_sys_bytes | 0 |";
                     lit "| max_goroutines | 0 |" ])
  /\ main ascii_digits sample_float_of_str sample_int_of_str sample_repr
       sample_now sample_args seal_log ts_log (JObj null_config_members)
     = Raise TypeError.
Proof. repeat split; vm_compute; reflexivity. Qed.

(** * The text of numbers *)

Lemma uint_chars_digits u :
  Forall (fun c => is_ascii_digit c = true) (uint_chars u).
Proof. induction u; cbn [uint_chars]; by constructor. Qed.

Lemma digits_all n : Forall (fun c => is_ascii_digit c = true) (digits n).
Proof. apply uint_chars_digits. Qed.

Lemma digits_nonempty n : digits n <> [].
Proof.
  unfold digits. destruct n as [|p]; [discriminate|]. cbn [N.to_uint].
  pose proof (DecimalPos.Unsigned.to_uint_nonnil p) as Hp.
  by destruct (Pos.to_uint p).
Qed.

(** [group3] cuts its argument in groups of three, a comma after each,
    and a last group of one to three. *)
Lemma group3_chunks n :
  forall r, (length r <= n)%nat -> r <> [] ->
    exists chunks last,
      r = concat chunks ++ last
      /\ group3 r = concat (map (fun c => c ++ [44]) chunks) ++ last
      /\ Forall (fun c => length c = 3%nat) chunks
      /\ (1 <= length last <= 3)%nat.
Proof.
  induction n as [|n IH]; intros r Hn Hr.
  - destruct r; [done | simpl in Hn; lia].
  - destruct r as [|a [|b [|c [|d rest]]]]; try done.
    + exists [], [a]. simpl. repeat split; auto; lia.
    + exists [], [a; b]. simpl. repeat split; auto; lia.
    + exists [], [a; b; c]. simpl. repeat split; auto; lia.
    + destruct (IH (d :: rest)) as (chunks & last & Hcat & Hg & Hall & Hlen);
        [simpl in *; lia | done |].
      exists ([a; b; c] :: chunks), last.
      split; [cbn [concat app]; by rewrite <- Hcat|].
      split; [|split; [by constructor | done]].
      change (group3 (a :: b :: c :: d :: rest))
        with (a :: b :: c :: 44 :: group3 (d :: rest)).
      rewrite Hg. reflexivity.
Qed.

Lemma rev_concat_with (sep : str) chunks :
  rev (concat (map (fun c => c ++ sep) chunks))
  = concat (map (fun g => rev sep ++ g) (map (@rev N) (rev chunks))).
Proof.
  induction chunks as [|c chunks IH]; [reflexivity|].
  cbn [map concat rev]. rewrite rev_app_distr, IH, !map_app, concat_app.
  cbn [map concat]. by rewrite rev_app_distr, app_nil_r.
Qed.

Lemma rev_concat (chunks : list str) :
  rev (concat chunks) = concat (map (@rev N) (rev chunks)).
Proof.
  induction chunks as [|c chunks IH]; [reflexivity|].
  cbn [concat rev]. rewrite rev_app_distr, IH, map_app, concat_app.
  cbn [map concat]. by rewrite app_nil_r.
Qed.

Lemma format_comma_grouped z :
  exists s,
    format_comma z = sign (z <? 0)%Z ++ s
    /\ thousands_grouped (digits (Z.abs_N z)) s.
Proof.
  unfold format_comma. eexists. split; [reflexivity|].
  set (d := digits (Z.abs_N z)).
  destruct (group3_chunks (length (rev d)) (rev d))
    as (chunks & last & Hcat & Hg & Hall & Hlen); [lia| |].
  { intros Hnil. apply (f_equal (@rev N)) in Hnil.
    rewrite rev_involutive in Hnil. by apply (digits_nonempty (Z.abs_N z)). }
  exists (rev last), (map (@rev N) (rev chunks)).
  split.
  { rewrite <- (rev_involutive d), Hcat, rev_app_distr. f_equal.
    apply rev_concat. }
  split.
  { rewrite Hg, rev_app_distr. f_equal. apply (rev_concat_with [44]). }
  split; [by rewrite length_rev|].
  split; [|apply digits_all].
  apply Forall_forall. intros g Hgin.
  apply list_elem_of_fmap in Hgin as (c & -> & Hc).
  rewrite length_rev. apply list_elem_of_In, in_rev, list_elem_of_In in Hc.
  by apply (proj1 (Forall_forall _ _) Hall).
Qed.

Lemma fixed_digits_shape places n :
  exists ip frac,
    fixed_digits (S places) n = ip ++ lit "." ++ frac
    /\ ip <> [] /\ length frac = S places
    /\ Forall (fun c => is_ascii_digit c = true) (ip ++ frac).
Proof.
  unfold fixed_digits.
  set (d := repeat 48 (S (S places) - length (digits n)) ++ digits n).
  assert (S (S places) <= length d)%nat as Hlen.
  { unfold d. rewrite length_app, repeat_length. lia. }
  exists (take (length d - S places) d), (drop (length d - S places) d).
  split; [reflexivity|]. split.
  { intros Hnil. apply (f_equal (@length N)) in Hnil.
    rewrite length_take in Hnil. simpl in Hnil. lia. }
  split; [rewrite length_drop; lia|].
  rewrite take_drop. unfold d. apply Forall_app. split.
  - apply Forall_forall. intros c Hc. apply list_elem_of_In in Hc.
    by apply repeat_spec in Hc as ->.
  - apply digits_all.
Qed.

Lemma format_f_fixed places x :
  finite x = true -> fixed_decimals (S places) (format_f (S places) x).
Proof.
  intros Hx. destruct x as [s|s| |s m e]; try discriminate;
    cbn [format_f]; unfold fixed_decimals.
  - destruct (fixed_digits_shape places 0) as (ip & frac & -> & H).
    by exists s, ip, frac.
  - match goal with |- context [fixed_digits _ ?n] =>
      destruct (fixed_digits_shape places n) as (ip & frac & -> & H) end.
    by exists s, ip, frac.
Qed.

(** * The numbers of the report *)

Lemma not_grouped_without_comma d :
  (3 < length d)%nat -> ~ thousands_grouped d d.
Proof.
  intros Hlen (first & groups & Hd & Hs & Hfirst & _ & _).
  destruct groups as [|g groups].
  - cbn [concat] in Hd. rewrite app_nil_r in Hd. subst d. lia.
  - rewrite Hd in Hs at 1. apply app_inv_head in Hs.
    apply (f_equal (@length N)) in Hs. cbn [map concat] in Hs.
    rewrite !length_app in Hs. cbn [length] in Hs.
    assert (forall gs : list str,
      length (concat gs)
      <= length (concat (map (fun g : str => 44%N :: g) gs)))%nat
      as Hle.
    { intros gs. induction gs as [|x gs IH]; [done|].
      cbn [map concat]. rewrite !length_app. cbn [length]. lia. }
    specialize (Hle groups). lia.
Qed.

Lemma fixed_decimals_length places s :
  fixed_decimals places s -> (places + 2 <= length s)%nat.
Proof.
  intros (negative & ip & frac & -> & Hip & Hfrac & _).
  rewrite !length_app, Hfrac. destruct ip; [done|].
  change (length (lit ".")) with 1%nat. cbn [length]. lia.
Qed.

(** C3, as stated, fails: the counts of the summary are written without
    thousands separators ([attempts] 1234567 is not written [1,234,567]),
    and a timing that is NaN is written [nan], without decimals. *)
Lemma summary_counts_not_grouped :
  summary_stage sample_float_of_str sample_repr no_resources_doc =
    Ok (join nl [ lit "| attempts | 1234567 |";
                  lit "| success | 1234000 |";
                  lit "| failure | 0 |";
                  lit "| success_rate | 0 |";
                  lit "| duration_seconds | 30.0000 |";
                  lit "| peak_conn_per_sec | 0 |";
                  lit "| active_peak | 0 |" ])
  /\ format_comma 1234567 = lit "1,234,567"
  /\ digits 1234567 = lit "1234567"
  /\ ~ thousands_grouped (lit "1234567") (lit "1234567")
  /\ latency_row sample_float_of_str nan_latency (lit "ws_open") =
       Ok (lit "| ws_open | nan | 0.000000 | 0.000000 | 0.000000"
           ++ lit " | 0.000000 | 0.000000 |")
  /\ ~ fixed_decimals 6 (lit "nan").
Proof.
  split; [vm_compute; reflexivity|]. split; [vm_compute; reflexivity|].
  split; [vm_compute; reflexivity|].
  split; [apply not_grouped_without_comma; vm_compute; lia|].
  split; [vm_compute; reflexivity|].
  intros H. apply fixed_decimals_length in H. vm_compute in H. lia.
Qed.

Section NumberFacts.

Variable float_of_str : str -> option float.
Variable int_of_str : str -> option Z.
Variable repr_other : json -> str.

Lemma resources_row_grouped resources key row :
  resources_row int_of_str resources key = Ok row ->
  exists cell,
    grouped_cell int_of_str resources key cell /\ row = kv_row key cell.
Proof.
  unfold resources_row, fmt_int. intros H.
  apply bind_ok in H as (v & Hv & H). apply bind_ok in H as (n & Hn & H).
  injection H as <-. apply bind_ok in Hn as (z & Hz & Hn). injection Hn as <-.
  destruct (format_comma_grouped z) as (s & -> & Hs).
  eexists. split; [|reflexivity]. by exists v, z, s.
Qed.

Lemma get_fmt_float places item key cell :
  (get item key (JInt 0) ≫= fun v => fmt_float float_of_str v (S places))
  = Ok cell ->
  fixed_cell float_of_str (S places) item key cell.
Proof.
  intros H. apply bind_ok in H as (v & Hv & H). unfold fmt_float in H.
  apply bind_ok in H as (x & Hx & H). injection H as <-.
  exists v, x. repeat split; try done. apply format_f_fixed.
Qed.

Lemma summary_row_plain summary key row :
  summary_row repr_other summary key = Ok row ->
  plain_row repr_other summary key row.
Proof.
  unfold summary_row. intros H. apply bind_ok in H as (v & Hv & H).
  injection H as <-. by exists v.
Qed.

(** C3 (amended): in the report the four resources counters are written as
    integers with thousands separators; the six timings of every latency
    stage are written with 6 decimals and the [duration_seconds] of the
    summary with 4, which for every value that is a finite number is a
    sign, digits, a point and exactly that many digits; the other six
    fields of the summary ([attempts], [success], [failure],
    [success_rate], [peak_conn_per_sec], [active_peak]) are written as
    [str] gives them, neither grouped nor rounded. *)
Theorem report_number_formats :
  (forall resources t,
      resources_table int_of_str resources = Ok t ->
      exists c1 c2 c3 c4,
        grouped_cell int_of_str resources (lit "max_heap_alloc_bytes") c1
        /\ grouped_cell int_of_str resources (lit "max_heap_inuse_bytes") c2
        /\ grouped_cell int_of_str resources (lit "max_sys_bytes") c3
        /\ grouped_cell int_of_str resources (lit "max_goroutines") c4
        /\ t = join nl [ kv_row (lit "max_heap_alloc_bytes") c1;
                         kv_row (lit "max_heap_inuse_bytes") c2;
                         kv_row (lit "max_sys_bytes") c3;
                         kv_row (lit "max_goroutines") c4 ])
  /\ (forall latency stage row,
        latency_row float_of_str latency stage = Ok row ->
        exists item p50 p95 p99 mean min max,
          get latency stage (JObj []) = Ok item
          /\ fixed_cell float_of_str 6 item (lit "p50_ms") p50
          /\ fixed_cell float_of_str 6 item (lit "p95_ms") p95
          /\ fixed_cell float_of_str 6 item (lit "p99_ms") p99
          /\ fixed_cell float_of_str 6 item (lit "mean_ms") mean
          /\ fixed_cell float_of_str 6 item (lit "min_ms") min
          /\ fixed_cell float_of_str 6 item (lit "max_ms") max
          /\ row = lit "| " ++ stage ++ lit " | " ++ p50 ++ lit " | " ++ p95
                   ++ lit " | " ++ p99 ++ lit " | " ++ mean ++ lit " | "
                   ++ min ++ lit " | " ++ max ++ lit " |")
  /\ (forall summary t,
        summary_table float_of_str repr_other summary = Ok t ->
        exists r1 r2 r3 r4 d r6 r7,
          plain_row repr_other summary (lit "attempts") r1
          /\ plain_row repr_other summary (lit "success") r2
          /\ plain_row repr_other summary (lit "failure") r3
          /\ plain_row repr_other summary (lit "success_rate") r4
          /\ fixed_cell float_of_str 4 summary (lit "duration_seconds") d
          /\ plain_row repr_other summary (lit "peak_conn_per_sec") r6
          /\ plain_row repr_other summary (lit "active_peak") r7
          /\ t = join nl [ r1; r2; r3; r4;
                           kv_row (lit "duration_seconds") d; r6; r7 ]).
Proof.
  split; [|split].
  - intros resources t H. unfold resources_table in H.
    apply bind_ok in H as (r1 & H1 & H). apply bind_ok in H as (r2 & H2 & H).
    apply bind_ok in H as (r3 & H3 & H). apply bind_ok in H as (r4 & H4 & H).
    injection H as <-.
    apply resources_row_grouped in H1 as (c1 & Hc1 & ->),
      H2 as (c2 & Hc2 & ->), H3 as (c3 & Hc3 & ->), H4 as (c4 & Hc4 & ->).
    by exists c1, c2, c3, c4.
  - intros latency stage row H. unfold latency_row in H.
    apply bind_ok in H as (item & Hitem & H).
    apply bind_ok in H as (c1 & H1 & H). apply bind_ok in H as (c2 & H2 & H).
    apply bind_ok in H as (c3 & H3 & H). apply bind_ok in H as (c4 & H4 & H).
    apply bind_ok in H as (c5 & H5 & H). apply bind_ok in H as (c6 & H6 & H).
    injection H as <-.
    apply get_fmt_float in H1, H2, H3, H4, H5, H6.
    by exists item, c1, c2, c3, c4, c5, c6.
  - intros summary t H. unfold summary_table in H.
    apply bind_ok in H as (r1 & H1 & H). apply bind_ok in H as (r2 & H2 & H).
    apply bind_ok in H as (r3 & H3 & H). apply bind_ok in H as (r4 & H4 & H).
    apply bind_ok in H as (r5 & H5 & H). apply bind_ok in H as (r6 & H6 & H).
    apply bind_ok in H as (r7 & H7 & H). injection H as <-.
    apply summary_row_plain in H1, H2, H3, H4, H6, H7.
    apply bind_ok in H5 as (v5 & Hv5 & H5).
    apply bind_ok in H5 as (d & Hd & H5). injection H5 as <-.
    assert (fixed_cell float_of_str 4 summary (lit "duration_seconds") d)
      as Hfix by (apply get_fmt_float; by rewrite Hv5).
    by exists r1, r2, r3, r4, d, r6, r7.
Qed.

End NumberFacts.

Lemma report_number_formats_witness :
  resources_table sample_int_of_str big_resources =
    Ok (join nl [ lit "| max_heap_alloc_bytes | 1,234,567,890 |";
                  lit "| max_heap_inuse_bytes | 0 |";
                  lit "| max_sys_bytes | 0 |";
                  lit "| max_goroutines | 1,024 |" ])
  /\ (exists c1,
        grouped_cell sample_int_of_str big_resources
          (lit "max_heap_alloc_bytes") c1)
  /\ latency_row sample_float_of_str (JObj []) (lit "rpc_call") =
       Ok (lit "| rpc_call | 0.000000 | 0.000000 | 0.000000 | 0.000000"
           ++ lit " | 0.000000 | 0.000000 |")
  /\ (exists item p50,
        fixed_cell sample_float_of_str 6 item (lit "p50_ms") p50)
  /\ exists t d,
       summary_table sample_float_of_str sample_repr
         (JObj [ (lit "duration_seconds", JInt 30) ]) = Ok t
       /\ fixed_cell sample_float_of_str 4
            (JObj [ (lit "duration_seconds", JInt 30) ])
            (lit "duration_seconds") d.
Proof.
  destruct (report_number_formats sample_float_of_str sample_int_of_str
              sample_repr) as (Hres & Hlat & Hsum).
  split; [vm_compute; reflexivity|]. split.
  { edestruct (Hres big_resources) as (c1 & c2 & c3 & c4 & H1 & _);
      [vm_compute; reflexivity|].
    by exists c1. }
  split; [vm_compute; reflexivity|]. split.
  { edestruct (Hlat (JObj []) (lit "rpc_call"))
      as (item & p50 & p95 & p99 & mean & min & max & _ & H1 & _);
      [vm_compute; reflexivity|].
    by exists item, p50. }
  edestruct (Hsum (JObj [ (lit "duration_seconds", JInt 30) ]))
    as (r1 & r2 & r3 & r4 & d & r6 & r7 & _ & _ & _ & _ & Hd & _);
    [vm_compute; reflexivity|].
  eexists _, d. split; [vm_compute; reflexivity | exact Hd].
Defined.

(** * Further properties of [parse_go] *)

Section GoFacts.

Variable nd : N -> bool.

Lemma go_records_app l1 :
  forall pkg l2,
    go_records nd pkg (l1 ++ l2) =
    go_records nd pkg l1 ++ go_records nd (pkg_after pkg l1) l2.
Proof.
  induction l1 as [|line l1 IH]; intros pkg l2; [reflexivity|].
  cbn [app go_records pkg_after fold_left]. rewrite IH.
  by rewrite <- app_assoc.
Qed.

Lemma names_pkg_records pkg pkg' line post :
  names_pkg line = true ->
  go_records nd pkg (line :: post) = go_records nd pkg' (line :: post).
Proof.
  unfold names_pkg, is_pkg_line. intros H. apply andb_prop in H as [Hp Hn].
  apply bool_decide_eq_true in Hn. cbn [go_records].
  unfold bench_record, next_pkg. rewrite Hp.
  destruct (split (strip line)) as [|a [|b l]]; simpl in Hn; try lia.
  reflexivity.
Qed.

(** X1: benchmark outputs of several packages, one after the other: when the
    second part begins with a package line that names a package, each
    bucket of the whole is the bucket of the first part followed by the
    bucket of the second. *)
Theorem parse_go_concat (pre : list str) (line : str) (post : list str) :
  names_pkg line = true ->
  exists e1 t1 e2 t2,
    parse_go nd pre = Ok (go_out e1 t1)
    /\ parse_go nd (line :: post) = Ok (go_out e2 t2)
    /\ parse_go nd (pre ++ line :: post) = Ok (go_out (e1 ++ e2) (t1 ++ t2)).
Proof.
  intros Hline. eexists _, _, _, _.
  split; [apply parse_go_buckets|]. split; [apply parse_go_buckets|].
  rewrite parse_go_buckets, go_records_app, !routed_app.
  by rewrite (names_pkg_records (pkg_after [] pre) [] line post Hline).
Qed.

(** X2: a package line with no second field changes nothing: the records
    after it go where they would go without it. *)
Theorem bare_pkg_line_ignored (pre : list str) (line : str) (post : list str) :
  is_pkg_line line = true -> names_pkg line = false ->
  parse_go nd (pre ++ line :: post) = parse_go nd (pre ++ post).
Proof.
  unfold names_pkg. intros Hp Hn. rewrite Hp in Hn. cbn [andb] in Hn.
  apply bool_decide_eq_false in Hn. unfold is_pkg_line in Hp.
  rewrite !parse_go_buckets, !go_records_app. cbn [go_records].
  unfold bench_record, next_pkg. rewrite Hp.
  destruct (split (strip line)) as [|a [|b l]]; [done | done |].
  simpl in Hn. lia.
Qed.

Lemma pkg_after_no_pkg pre :
  forallb (fun line => negb (is_pkg_line line)) pre = true ->
  pkg_after [] pre = [].
Proof.
  induction pre as [|line pre IH]; intros H; [reflexivity|].
  cbn [forallb] in H. apply andb_prop in H as [Hl Hp].
  apply negb_true_iff in Hl. unfold is_pkg_line in Hl.
  cbn [pkg_after fold_left]. unfold next_pkg at 2. rewrite Hl. by apply IH.
Qed.

(** X3: the lines before the first package line add nothing, record lines
    included: the log parses as the log from its first package line on. *)
Theorem lines_before_first_pkg_dropped (pre post : list str) :
  forallb (fun line => negb (is_pkg_line line)) pre = true ->
  parse_go nd (pre ++ post) = parse_go nd post.
Proof.
  intros Hpre. rewrite !parse_go_buckets, go_records_app, !routed_app.
  rewrite pkg_after_no_pkg by done.
  by rewrite !(go_records_no_pkg nd _ pre) by (reflexivity || exact Hpre).
Qed.

End GoFacts.

Lemma parse_go_concat_witness :
  names_pkg (lit "pkg: example.com/tunnel/server" ++ nl) = true
  /\ parse_go ascii_digits (file_lines seal_log ++ file_lines tunnel_log)
     = Ok (go_out [seal_item] [relay_item]).
Proof.
  split; [reflexivity|].
  destruct (parse_go_concat ascii_digits (file_lines seal_log)
              (lit "pkg: example.com/tunnel/server" ++ nl)
              (drop 1 (file_lines tunnel_log)) eq_refl)
    as (e1 & t1 & e2 & t2 & H1 & H2 & H).
  etrans; [exact H|]. clear H.
  assert (Ok (go_out e1 t1) = Ok (go_out [seal_item] [])) as Ha
    by (rewrite <- H1; vm_compute; reflexivity).
  assert (Ok (go_out e2 t2) = Ok (go_out [] [relay_item])) as Hb
    by (rewrite <- H2; vm_compute; reflexivity).
  assert (forall e t e' t',
    Ok (go_out e t) = Ok (go_out e' t') -> e = e' /\ t = t') as Hinj.
  { intros e t e' t' Heq.
    pose proof (f_equal (fun res : result (gmap string (list go_item)) =>
      match res with Ok m => m !! "e2ee" | Raise _ => None end) Heq) as He.
    pose proof (f_equal (fun res : result (gmap string (list go_item)) =>
      match res with Ok m => m !! "tunnel" | Raise _ => None end) Heq) as Ht.
    change (Some e = Some e') in He. change (Some t = Some t') in Ht.
    split; congruence. }
  apply Hinj in Ha as [-> ->]. apply Hinj in Hb as [-> ->]. reflexivity.
Defined.

Lemma bare_pkg_line_ignored_witness :
  is_pkg_line (lit "pkg:" ++ nl) = true
  /\ names_pkg (lit "pkg:" ++ nl) = false
  /\ parse_go ascii_digits
       (take 1 (file_lines seal_log) ++ (lit "pkg:" ++ nl)
        :: drop 1 (file_lines seal_log))
     = Ok (go_out [seal_item] []).
Proof.
  split; [reflexivity|]. split; [reflexivity|].
  rewrite (bare_pkg_line_ignored ascii_digits) by reflexivity.
  vm_compute. reflexivity.
Defined.

Lemma lines_before_first_pkg_dropped_witness :
  forallb (fun line => negb (is_pkg_line line)) (file_lines no_pkg_log) = true
  /\ parse_go ascii_digits (file_lines no_pkg_log ++ file_lines tunnel_log)
     = Ok (go_out [] [relay_item]).
Proof.
  split; [reflexivity|].
  rewrite (lines_before_first_pkg_dropped ascii_digits) by reflexivity.
  vm_compute. reflexivity.
Defined.

(** * The records *)

Section RecordFacts.

Variable nd : N -> bool.

Lemma run_groups_prefix p :
  forall groups cur pre s r,
    run nd p groups cur pre s = Some r -> exists more, r = groups ++ more.
Proof.
  induction p as [|it p IH]; intros groups cur pre s r H.
  - injection H as <-. exists []. by rewrite app_nil_r.
  - destruct it.
    + cbn [run] in H. destruct pre; [eauto | discriminate].
    + apply run_eol in H as [_ H]. eauto.
    + rewrite run_open in H. eauto.
    + cbn [run] in H. destruct cur as [g|]; [|discriminate].
      apply IH in H as [more ->]. exists (g :: more).
      by rewrite <- app_assoc.
    + apply run_lit in H as (rest & _ & H). eauto.
    + apply run_plus in H as (more & rest & _ & _ & _ & H). eauto.
Qed.

Lemma bench_re_name s name ns b al :
  re_match nd bench_re s = Some [name; ns; b; al] ->
  exists rest, name = lit "Benchmark" ++ rest /\ rest <> [].
Proof.
  unfold re_match, bench_re. rewrite run_bol, run_open. intros H.
  apply run_lit in H as (s1 & _ & H).
  apply run_plus in H as (g1 & s2 & _ & Hg1 & _ & H).
  cbn [grow] in H. rewrite run_close in H.
  apply run_groups_prefix in H as [more H]. cbn [app] in H.
  injection H as -> _. by exists g1.
Qed.

Lemma routed_item_ok suffix f r :
  r ∈ routed suffix (go_records nd [] f) -> go_item_ok nd r.
Proof.
  intros H. apply routed_from_line in H as (line & _ & Hm).
  pose proof (bench_re_name _ _ _ _ _ Hm) as Hname.
  apply bench_re_match_shape in Hm
    as (w1 & it & w2 & w3 & w4 & tail & _ & _ & _ & Hsp & Hnum & Hdig & _
        & _ & Hns & Hb & Hal).
  apply Forall_app in Hnum as [Hn1 Hn2]. apply Forall_app in Hdig as [_ Hd].
  unfold go_item_ok. by repeat split.
Qed.

Lemma routed_items_ok f :
  Forall (go_item_ok nd)
    (routed (lit "/crypto/e2ee") (go_records nd [] f)
     ++ routed (lit "/tunnel/server") (go_records nd [] f)).
Proof.
  apply Forall_app. split; apply Forall_forall; intros r Hr;
    eapply routed_item_ok; exact Hr.
Qed.

(** X4: every record that [parse_go] returns has the shape that the
    pattern imposes: a name [Benchmark...] without white space, two
    non-empty measurements over [[0-9.]], a non-empty count of digits. *)
Theorem parse_go_items_ok (f : list str) :
  exists e t,
    parse_go nd f = Ok (go_out e t) /\ Forall (go_item_ok nd) (e ++ t).
Proof.
  eexists _, _. split; [apply parse_go_buckets | apply routed_items_ok].
Qed.

Lemma split_from_fields (P : N -> Prop) s :
  forall cur,
    Forall (fun c => isspace c = false /\ P c) cur -> Forall P s ->
    Forall (fun field =>
              field <> [] /\ Forall (fun c => isspace c = false /\ P c) field)
      (split_from cur s).
Proof.
  induction s as [|c s IH]; intros cur Hcur Hs; cbn [split_from].
  - destruct cur as [|c0 cur]; [by apply Forall_nil|].
    apply Forall_cons. split; [done | by apply Forall_nil].
  - apply Forall_cons in Hs as [Hc Hs]. destruct (isspace c) eqn:Hsp.
    + destruct cur as [|c0 cur]; [by apply IH|].
      apply Forall_cons. split; [done | by apply IH].
    + apply IH; [|done]. apply Forall_app. split; [done|].
      by repeat constructor.
Qed.

Lemma in_section_item_ok sec f r :
  r ∈ in_section sec (ts_records None f) -> ts_item_ok r.
Proof.
  intros H. apply in_section_from_line in H
    as (line & fields & _ & Hsplit & H0 & H1 & H4).
  assert (Forall ts_field_ok fields) as Hall.
  { rewrite <- Hsplit. unfold split.
    apply (split_from_fields (fun c => c <> bullet)); [constructor|].
    unfold remove_char. apply Forall_forall. intros c Hc.
    apply list_elem_of_In, List.filter_In in Hc as [_ Hc].
    apply negb_true_iff in Hc. by apply N.eqb_neq. }
  unfold ts_item_ok.
  repeat split; eapply (Forall_lookup_1 _ _ _ _ Hall); eassumption.
Qed.

Lemma in_section_items_ok f :
  Forall ts_item_ok
    (in_section "handshake" (ts_records None f)
     ++ in_section "record" (ts_records None f)
     ++ in_section "yamux" (ts_records None f)).
Proof.
  rewrite !Forall_app. repeat split; apply Forall_forall; intros r Hr;
    eapply in_section_item_ok; exact Hr.
Qed.

(** X5: every field of every record that [parse_ts] returns is a
    non-empty string without white space and without a bullet. *)
Theorem parse_ts_items_ok (f : list str) :
  exists h r y,
    parse_ts f = Ok (ts_out h r y) /\ Forall ts_item_ok (h ++ r ++ y).
Proof.
  eexists _, _, _. split; [apply parse_ts_buckets | apply in_section_items_ok].
Qed.

End RecordFacts.

(** * Rows and lines *)

Lemma universal_newlines_cons c s :
  c <> 13 -> universal_newlines (c :: s) = c :: universal_newlines s.
Proof.
  intros Hc. destruct c as [|p]; [reflexivity|].
  do 4 (try destruct p as [p|p|]); try reflexivity. congruence.
Qed.

Lemma universal_newlines_id s :
  Forall (fun c => c <> 13) s -> universal_newlines s = s.
Proof.
  induction 1 as [|c s Hc Hs IH]; [reflexivity|].
  by rewrite universal_newlines_cons, IH.
Qed.

Lemma lines_from_row row :
  Forall (fun c => c <> 10) row ->
  forall cur rest,
    lines_from cur (row ++ 10 :: rest)
    = (cur ++ row ++ [10]) :: lines_from [] rest.
Proof.
  induction 1 as [|c row Hc Hrow IH]; intros cur rest.
  - cbn [app lines_from]. by rewrite N.eqb_refl.
  - cbn [app lines_from]. apply N.eqb_neq in Hc. rewrite Hc, IH.
    by rewrite <- !app_assoc.
Qed.

Lemma join_nl_lines rows :
  rows <> [] -> join nl rows ++ nl = concat (map (fun row => row ++ nl) rows).
Proof.
  induction rows as [|row rows IH]; [done|]. intros _.
  destruct rows as [|row' rows].
  - cbn [join map concat]. by rewrite app_nil_r.
  - change (join nl (row :: row' :: rows))
      with (row ++ nl ++ join nl (row' :: rows)).
    change (concat (map (fun r => r ++ nl) (row :: row' :: rows)))
      with ((row ++ nl)
            ++ concat (map (fun r : str => r ++ nl) (row' :: rows))).
    rewrite <- IH by done. by rewrite <- !app_assoc.
Qed.

(** Rows without a line break, written one per line, are read back one
    per line. *)
Lemma file_lines_rows rows :
  Forall (Forall (fun c => c <> 10 /\ c <> 13)) rows -> rows <> [] ->
  file_lines (join nl rows ++ nl) = map (fun row => row ++ nl) rows.
Proof.
  intros Hrows Hne. rewrite join_nl_lines by done. clear Hne.
  unfold file_lines. rewrite universal_newlines_id.
  - induction Hrows as [|row rows Hrow Hrows IH]; [reflexivity|].
    cbn [map concat]. unfold nl at 1. rewrite <- app_assoc. cbn [app].
    rewrite lines_from_row; [by rewrite IH|].
    eapply Forall_impl; [exact Hrow|]. by intros c [Hc _].
  - apply Forall_concat, Forall_fmap, Forall_forall. intros row Hin.
    apply Forall_app. split; [|by repeat constructor].
    eapply Forall_impl;
      [exact (proj1 (Forall_forall _ _) Hrows row Hin)|].
    by intros c [_ Hc].
Qed.

Lemma nonspace_no_break c : isspace c = false -> c <> 10 /\ c <> 13.
Proof. intros H. split; intros ->; discriminate. Qed.

Lemma num_char_no_break c : is_num_char c = true -> c <> 10 /\ c <> 13.
Proof. intros H. split; intros ->; discriminate. Qed.

Lemma digit_no_break nd c : isdigit nd c = true -> c <> 10 /\ c <> 13.
Proof. intros H. split; intros ->; discriminate. Qed.

Lemma go_row_no_break nd r :
  go_item_ok nd r -> Forall (fun c => c <> 10 /\ c <> 13) (go_row r).
Proof.
  intros (_ & Hname & _ & Hns & _ & Hb & _ & Hal). unfold go_row.
  rewrite !Forall_app. repeat split;
    try (eval_lit; by repeat constructor).
  - eapply Forall_impl; [exact Hname|]. apply nonspace_no_break.
  - eapply Forall_impl; [exact Hns|]. apply num_char_no_break.
  - eapply Forall_impl; [exact Hb|]. apply num_char_no_break.
  - eapply Forall_impl; [exact Hal|]. apply digit_no_break.
Qed.

Lemma ts_row_no_break r :
  ts_item_ok r -> Forall (fun c => c <> 10 /\ c <> 13) (ts_row r).
Proof.
  intros ([_ Hname] & [_ Hhz] & [_ Hmean]). unfold ts_row.
  rewrite !Forall_app. repeat split;
    try (eval_lit; by repeat constructor);
    (eapply Forall_impl; [eassumption|]);
    intros c [Hc _]; by apply nonspace_no_break.
Qed.

(** X6: no row of a benchmark table holds a line break, whatever the logs:
    each of the five tables has one line per record, and reading a table
    that is not empty line by line gives back the rows of its records. *)
Theorem bench_table_rows_read_back
    (nd : N -> bool) (go_lines ts_lines : list str) :
  exists e t h r y,
    parse_go nd go_lines = Ok (go_out e t)
    /\ parse_ts ts_lines = Ok (ts_out h r y)
    /\ forall rows,
         rows ∈ [ map go_row e; map go_row t;
                  map ts_row h; map ts_row r; map ts_row y ] ->
         rows <> [] ->
         file_lines (join nl rows ++ nl) = map (fun row => row ++ nl) rows.
Proof.
  pose proof (routed_items_ok nd go_lines) as Hok.
  pose proof (in_section_items_ok ts_lines) as Hok'.
  eexists _, _, _, _, _.
  split; [apply parse_go_buckets|]. split; [apply parse_ts_buckets|].
  apply Forall_app in Hok as [He Ht].
  apply Forall_app in Hok' as [Hh Hok']. apply Forall_app in Hok' as [Hr Hy].
  intros rows Hin Hne. apply file_lines_rows; [|done].
  repeat (apply elem_of_cons in Hin as [->|Hin]);
    try (by apply elem_of_nil in Hin);
    apply Forall_fmap;
    (eapply Forall_impl; [eassumption|]); intros item Hitem;
    first [ by apply (go_row_no_break nd) | by apply ts_row_no_break ].
Qed.

Lemma bench_table_rows_read_back_witness :
  parse_go ascii_digits (file_lines seal_log ++ file_lines tunnel_log)
  = Ok (go_out [seal_item] [relay_item])
  /\ file_lines (join nl (map go_row [seal_item]) ++ nl)
     = [lit "| BenchmarkSeal | 52.3 | 16 | 1 |" ++ nl].
Proof.
  split; [vm_compute; reflexivity|].
  destruct (bench_table_rows_read_back ascii_digits
              (file_lines seal_log) (file_lines ts_log))
    as (e & t & h & r & y & Hgo & _ & H).
  assert (e = [seal_item]) as ->.
  { assert (Ok (go_out e t) = Ok (go_out [seal_item] [])) as Hout
      by (rewrite <- Hgo; vm_compute; reflexivity).
    apply (f_equal (fun res : result (gmap string (list go_item)) =>
                      match res with
                      | Ok m => m !! "e2ee"
                      | Raise _ => None
                      end)) in Hout.
    change (Some e = Some [seal_item]) in Hout. by injection Hout. }
  rewrite H; [reflexivity | left | discriminate].
Defined.

(** * White space around a line *)

Lemma lstrip_head s :
  lstrip s = [] \/ exists c s', lstrip s = c :: s' /\ isspace c = false.
Proof.
  induction s as [|c s IH]; [by left|]. cbn [lstrip].
  destruct (isspace c) eqn:Hc; [exact IH|]. right. by exists c, s.
Qed.

Lemma lstrip_fixed s : lstrip (lstrip s) = lstrip s.
Proof.
  destruct (lstrip_head s) as [->|(c & s' & -> & Hc)]; [reflexivity|].
  cbn [lstrip]. by rewrite Hc.
Qed.

Lemma lstrip_snoc c l :
  isspace c = false -> exists x, lstrip (l ++ [c]) = x ++ [c].
Proof.
  intros Hc. induction l as [|d l IH]; cbn [app lstrip].
  - rewrite Hc. by exists [].
  - destruct (isspace d); [exact IH|]. by exists (d :: l).
Qed.

(** Trimming a trimmed line changes nothing. *)
Lemma strip_idempotent s : strip (strip s) = strip s.
Proof.
  unfold strip, rstrip.
  destruct (lstrip_head s) as [->|(c & a & -> & Hc)]; [reflexivity|].
  cbn [rev]. destruct (lstrip_snoc c (rev a) Hc) as [x Hx].
  assert (lstrip (x ++ [c]) = x ++ [c]) as Hfix
    by (rewrite <- Hx; apply lstrip_fixed).
  rewrite Hx, rev_app_distr. cbn [rev app lstrip]. rewrite Hc.
  change (rev (c :: rev x)) with (rev (rev x) ++ [c]).
  by rewrite rev_involutive, Hfix, rev_app_distr.
Qed.

Lemma go_records_strip nd f :
  forall pkg, go_records nd pkg (map strip f) = go_records nd pkg f.
Proof.
  induction f as [|line f IH]; intros pkg; [reflexivity|].
  cbn [map go_records]. unfold bench_record, next_pkg.
  by rewrite strip_idempotent, IH.
Qed.

(** X7: white space at the two ends of the lines, line terminators included,
    does not matter to [parse_go]: the log of the trimmed lines parses to
    the same buckets. *)
Theorem parse_go_ignores_outer_space (nd : N -> bool) (f : list str) :
  parse_go nd (map strip f) = parse_go nd f.
Proof. by rewrite !parse_go_buckets, go_records_strip. Qed.

(** * Numbers read back *)

Lemma decimal_value_uint u :
  forall d,
    fold_left (fun acc c => 10 * acc + (c - 48)) (uint_chars u)
      (DecimalPos.Unsigned.of_lu d)
    = DecimalPos.Unsigned.of_lu (Decimal.revapp u d).
Proof.
  induction u as [|u IH|u IH|u IH|u IH|u IH|u IH|u IH|u IH|u IH|u IH];
    intros d; [reflexivity|..];
    cbn [uint_chars fold_left Decimal.revapp]; rewrite <- IH; f_equal;
    cbn [DecimalPos.Unsigned.of_lu]; lia.
Qed.

(** The digits of [n] denote [n]. *)
Lemma decimal_value_digits n : decimal_value (digits n) = n.
Proof.
  unfold decimal_value, digits.
  change 0 with (DecimalPos.Unsigned.of_lu Decimal.Nil).
  rewrite decimal_value_uint.
  change (Decimal.revapp (N.to_uint n) Decimal.Nil)
    with (Decimal.rev (N.to_uint n)).
  rewrite <- DecimalPos.Unsigned.of_uint_alt.
  apply DecimalN.Unsigned.of_to.
Qed.

Lemma int_value_str_of_int z : int_value (str_of_int z) = z.
Proof.
  unfold str_of_int, int_value. destruct (Z.ltb_spec z 0) as [Hz|Hz].
  - cbn [sign]. change (lit "-") with [45]. cbn [app].
    rewrite decimal_value_digits. lia.
  - cbn [sign app]. pose proof (digits_all (Z.abs_N z)) as Hall.
    pose proof (decimal_value_digits (Z.abs_N z)) as Hval.
    destruct (digits (Z.abs_N z)) as [|c d] eqn:Hd; [rewrite Hval; lia|].
    apply Forall_cons in Hall as [Hc _].
    destruct (N.eq_dec c 45) as [->|Hne]; [discriminate|].
    assert (match c :: d with
            | 45 :: d' => (- Z.of_N (decimal_value d'))%Z
            | _ => Z.of_N (decimal_value (c :: d))
            end = Z.of_N (decimal_value (c :: d))) as ->.
    { destruct c as [|p]; [reflexivity|].
      do 6 (try destruct p as [p|p|]); try reflexivity. congruence. }
    rewrite Hval. lia.
Qed.

Lemma remove_comma_digits l :
  Forall (fun c => is_ascii_digit c = true) l -> remove_char 44 l = l.
Proof.
  induction 1 as [|c l Hc Hl IH]; [reflexivity|].
  unfold remove_char in *. cbn [List.filter].
  destruct (N.eqb_spec c 44) as [->|_]; [discriminate|].
  cbn [negb]. by rewrite IH.
Qed.

Lemma remove_comma_groups groups :
  Forall (fun c => is_ascii_digit c = true) (concat groups) ->
  remove_char 44 (concat (map (fun g => 44 :: g) groups)) = concat groups.
Proof.
  induction groups as [|g groups IH]; [reflexivity|].
  cbn [map concat]. intros H. apply Forall_app in H as [Hg Hgs].
  unfold remove_char in *. cbn [app List.filter].
  rewrite N.eqb_refl. cbn [negb]. rewrite List.filter_app, IH by done.
  f_equal. by apply remove_comma_digits.
Qed.

Lemma remove_comma_format z : remove_char 44 (format_comma z) = str_of_int z.
Proof.
  destruct (format_comma_grouped z)
    as (s & -> & first & groups & Hd & -> & _ & _ & Hall).
  unfold str_of_int. rewrite Hd in *. apply Forall_app in Hall as [Hf Hg].
  unfold remove_char at 1. rewrite !List.filter_app.
  fold (remove_char 44 first).
  fold (remove_char 44 (concat (map (fun g => 44 :: g) groups))).
  rewrite remove_comma_digits, remove_comma_groups by done.
  f_equal. by destruct (z <? 0)%Z.
Qed.

(** X8: [fmt_int] only puts commas into the decimal text of [int(v)]: with
    the commas deleted its result is [str(int(v))], and that text denotes
    [int(v)]. *)
Theorem fmt_int_round_trip
    (int_of_str : str -> option Z) (v : json) (s : str) :
  fmt_int int_of_str v = Ok s ->
  exists z,
    py_int int_of_str v = Ok z
    /\ remove_char 44 s = str_of_int z
    /\ int_value (remove_char 44 s) = z.
Proof.
  unfold fmt_int. intros H. apply bind_ok in H as (z & Hz & H).
  injection H as <-. exists z. split; [done|].
  rewrite remove_comma_format. split; [done | apply int_value_str_of_int].
Qed.

Lemma fmt_int_round_trip_witness :
  fmt_int sample_int_of_str (JInt (-1234567)) = Ok (lit "-1,234,567")
  /\ remove_char 44 (lit "-1,234,567") = lit "-1234567"
  /\ int_value (remove_char 44 (lit "-1,234,567")) = (-1234567)%Z.
Proof.
  destruct (fmt_int_round_trip sample_int_of_str (JInt (-1234567))
              (lit "-1,234,567")) as (z & Hz & Hs & Hv);
    [vm_compute; reflexivity|].
  injection Hz as <-. split; [vm_compute; reflexivity|].
  split; [vm_compute; reflexivity | exact Hv].
Defined.

Lemma round_half_even_near num den :
  (0 < den)%Z ->
  (Z.abs (2 * (round_half_even num den * den - num)) <= den)%Z.
Proof.
  intros Hden. unfold round_half_even.
  pose proof (Z.div_mod num den ltac:(lia)) as Hdm.
  pose proof (Z.mod_pos_bound num den Hden) as Hr.
  set (q := (num / den)%Z) in *. set (r := (num mod den)%Z) in *.
  destruct (Z.compare_spec (2 * r) den) as [He|Hl|Hg];
    [destruct (Z.even q)|..]; nia.
Qed.

Lemma round_half_even_nonneg num den :
  (0 <= num)%Z -> (0 < den)%Z -> (0 <= round_half_even num den)%Z.
Proof.
  intros Hn Hd. unfold round_half_even.
  pose proof (Z.div_pos num den Hn Hd) as Hq.
  destruct (2 * (num mod den) ?= den)%Z; [destruct (Z.even _)|..]; lia.
Qed.

Lemma decimal_value_zeros k l :
  decimal_value (repeat 48 k ++ l) = decimal_value l.
Proof.
  unfold decimal_value. rewrite fold_left_app. f_equal.
  induction k as [|k IH]; [reflexivity|]. cbn [repeat fold_left].
  exact IH.
Qed.

Lemma fixed_digits_value places n :
  exists ip frac,
    fixed_digits (S places) n = ip ++ lit "." ++ frac
    /\ length frac = S places
    /\ decimal_value (ip ++ frac) = n.
Proof.
  unfold fixed_digits.
  set (d := repeat 48 (S (S places) - length (digits n)) ++ digits n).
  assert (S (S places) <= length d)%nat as Hlen.
  { unfold d. rewrite length_app, repeat_length. lia. }
  exists (take (length d - S places) d), (drop (length d - S places) d).
  split; [reflexivity|]. split; [rewrite length_drop; lia|].
  rewrite take_drop. unfold d.
  by rewrite decimal_value_zeros, decimal_value_digits.
Qed.

(** [format_f] prints the nearest decimal: for a float [m * 2^e] and
    [p + 1] places the digits printed, read as an integer [n], are the
    value times [10^(p+1)] when that is an integer, and otherwise differ
    from it by half a unit at most. *)
Lemma format_f_nearest (s : bool) (m : positive) (e : Z) (p : nat) :
  exists ip frac,
    format_f (S p) (S754_finite s m e) = sign s ++ ip ++ lit "." ++ frac
    /\ length frac = S p
    /\ (let n := Z.of_N (decimal_value (ip ++ frac)) in
        if (0 <=? e)%Z
        then n = (Z.pos m * 10 ^ Z.of_nat (S p) * 2 ^ e)%Z
        else (Z.abs (2 * (n * 2 ^ (- e) - Z.pos m * 10 ^ Z.of_nat (S p)))
              <= 2 ^ (- e))%Z).
Proof.
  cbn [format_f].
  set (num := (Z.pos m * 10 ^ Z.of_nat (S p))%Z).
  assert (0 <= num)%Z as Hnum by (unfold num; apply Z.mul_nonneg_nonneg; lia).
  match goal with |- context [fixed_digits _ (Z.to_N ?n0)] =>
    destruct (fixed_digits_value p (Z.to_N n0)) as (ip & frac & -> & Hl & Hv)
  end.
  exists ip, frac. split; [reflexivity|]. split; [done|].
  cbn zeta. rewrite Hv. destruct (Z.leb_spec 0 e) as [He|He].
  - rewrite Z2N.id; [reflexivity|]. apply Z.mul_nonneg_nonneg; lia.
  - assert (0 < 2 ^ (- e))%Z as Hden by (apply Z.pow_pos_nonneg; lia).
    rewrite Z2N.id by (by apply round_half_even_nonneg).
    by apply round_half_even_near.
Qed.

(** * The load-generator tables *)

Section TableFacts.

Variable nd : N -> bool.
Variable float_of_str : str -> option float.
Variable int_of_str : str -> option Z.
Variable repr_other : json -> str.
Variable now : str.

Lemma config_row_object cm rows key :
  config_row repr_other (JObj cm) rows key =
  Ok (rows
      ++ match member key cm with
         | Some v => [kv_row key (py_str repr_other v)]
         | None => []
         end).
Proof.
  unfold config_row. cbn [has_key subscript]. rewrite bind_Ok.
  destruct (member key cm) as [v|].
  - by rewrite bool_decide_eq_true_2.
  - rewrite bool_decide_eq_false_2 by (intros Hn; by apply Hn).
    by rewrite app_nil_r.
Qed.

Lemma config_loop cm keys :
  forall rows,
    for_each (config_row repr_other (JObj cm)) rows keys =
    Ok (rows
        ++ omap (fun key =>
                   (fun v => kv_row key (py_str repr_other v))
                   <$> member key cm) keys).
Proof.
  induction keys as [|key keys IH]; intros rows.
  - cbn [for_each omap list_omap]. by rewrite app_nil_r.
  - rewrite for_each_cons, config_row_object, bind_Ok, IH.
    cbn [omap list_omap]. rewrite <- app_assoc.
    by destruct (member key cm).
Qed.

(** X10: the config table of a document whose config is an object, or that has
    no config, never raises and has one row for each key of the fixed
    order that the config holds, in that order: the order of the keys in
    the document and the keys outside the fixed list do not matter. *)
Theorem config_table_rows (members cm : list (str * json)) :
  get (JObj members) (lit "config") (JObj []) = Ok (JObj cm) ->
  config_stage repr_other (JObj members)
  = Ok (join nl (config_rows_of repr_other cm)).
Proof.
  intros H. unfold config_stage. rewrite H, bind_Ok, config_loop.
  reflexivity.
Qed.

(** X11: a stage that the latency object lacks, and every stage when the
    document has no latency, is written as a row of six zero timings. *)
Theorem missing_latency_renders_zeros :
  (forall lm stage,
      member stage lm = None ->
      latency_row float_of_str (JObj lm) stage = Ok (zero_latency_row stage))
  /\ (forall members,
        member (lit "latency") members = None ->
        latency_stage float_of_str (JObj members)
        = Ok (join nl (map zero_latency_row stages))).
Proof.
  assert (forall lm stage,
    member stage lm = None ->
    latency_row float_of_str (JObj lm) stage = Ok (zero_latency_row stage))
    as Hrow.
  { intros lm stage H. unfold latency_row, get. rewrite H. reflexivity. }
  split; [exact Hrow|]. intros members H.
  unfold latency_stage, get. rewrite H. cbn [from_option id].
  rewrite bind_Ok. unfold stages. cbn [map_result].
  rewrite !Hrow by reflexivity. reflexivity.
Qed.

(** X12: without a summary in the document the summary table is the seven
    rows of the fixed fields with zeros, [duration_seconds] with four
    decimals. *)
Theorem missing_summary_renders_defaults (members : list (str * json)) :
  member (lit "summary") members = None ->
  summary_stage float_of_str repr_other (JObj members)
  = Ok default_summary_table.
Proof.
  intros H. unfold summary_stage, get. rewrite H. reflexivity.
Qed.

(** X13: when [--ram-bytes] is not a number [main] raises [ValueError],
    whatever the logs and the document. *)
Theorem bad_ram_bytes_raises
    (a : args) (go_output ts_output : str) (loadgen : json) :
  float_of_str (ram_bytes a) = None ->
  main nd float_of_str int_of_str repr_other now a go_output ts_output loadgen
  = Raise ValueError.
Proof.
  intros H. rewrite main_by_stages. unfold ram_stage. by rewrite H.
Qed.

(** X14: when the document is not an object (a list, a number, [null], ...)
    and the RAM size is a number, [main] raises [AttributeError]. *)
Theorem non_object_document_raises
    (a : args) (go_output ts_output : str) (loadgen : json) (x : float) :
  float_of_str (ram_bytes a) = Some x ->
  is_object loadgen = false ->
  main nd float_of_str int_of_str repr_other now a go_output ts_output loadgen
  = Raise AttributeError.
Proof.
  intros Hx Hd. rewrite main_by_stages. unfold ram_stage. rewrite Hx, bind_Ok.
  by destruct loadgen.
Qed.

Lemma null_counter_row rm key :
  member key rm = Some JNull ->
  resources_row int_of_str (JObj rm) key = Raise TypeError.
Proof. intros H. unfold resources_row, get. by rewrite H. Qed.

(** X15: a counter that is present and [null] is not replaced by zero: the
    resources table raises, and [main] writes no report. *)
Theorem null_counter_raises
    (members rm : list (str * json)) (key : str) :
  member (lit "resources") members = Some (JObj rm) ->
  key ∈ resource_keys ->
  member key rm = Some JNull ->
  (exists e, resources_stage int_of_str (JObj members) = Raise e)
  /\ forall a go_output ts_output,
       exists e,
         main nd float_of_str int_of_str repr_other now a go_output ts_output
           (JObj members) = Raise e.
Proof.
  intros Hres Hkey Hnull.
  assert (exists e, resources_stage int_of_str (JObj members) = Raise e)
    as [e He].
  { unfold resources_stage, get. rewrite Hres. cbn [from_option id].
    rewrite bind_Ok. unfold resources_table.
    pose proof (null_counter_row rm key Hnull) as Hrow.
    unfold resource_keys in Hkey.
    repeat (apply elem_of_cons in Hkey as [->|Hkey]);
      try (by apply elem_of_nil in Hkey);
      repeat match goal with
      | |- context [resources_row int_of_str (JObj rm) ?k ≫= _] =>
          lazymatch goal with
          | H : resources_row int_of_str (JObj rm) k = _ |- _ =>
              rewrite H; eauto
          | _ => destruct (resources_row int_of_str (JObj rm) k) eqn:?;
                 [rewrite bind_Ok | eauto]
          end
      end. }
  split; [eauto|]. intros a go_output ts_output.
  rewrite main_by_stages, He.
  destruct (ram_stage float_of_str a); [|eauto].
  destruct (latency_stage float_of_str (JObj members)); [|eauto].
  destruct (config_stage repr_other (JObj members)); eauto.
Qed.

End TableFacts.

Lemma config_table_rows_witness :
  get (JObj [ (lit "config", JObj shuffled_config) ]) (lit "config") (JObj [])
  = Ok (JObj shuffled_config)
  /\ config_stage sample_repr (JObj [ (lit "config", JObj shuffled_config) ])
     = Ok (join nl [ lit "| mode | full |"; lit "| channels | 2000 |";
                     lit "| workers | 8 |" ]).
Proof.
  split; [reflexivity|].
  rewrite (config_table_rows sample_repr _ shuffled_config) by reflexivity.
  vm_compute. reflexivity.
Defined.

Lemma missing_latency_renders_zeros_witness :
  member (lit "rpc_call") [ (lit "ws_open", JObj []) ] = None
  /\ latency_row sample_float_of_str (JObj [ (lit "ws_open", JObj []) ])
       (lit "rpc_call")
     = Ok (zero_latency_row (lit "rpc_call"))
  /\ latency_stage sample_float_of_str no_resources_doc
     = Ok (join nl (map zero_latency_row stages)).
Proof.
  destruct (missing_latency_renders_zeros sample_float_of_str) as [H1 H2].
  split; [reflexivity|]. split; [by apply H1 | by apply H2].
Defined.

Lemma missing_summary_renders_defaults_witness :
  member (lit "summary") null_counter_members = None
  /\ summary_stage sample_float_of_str sample_repr (JObj null_counter_members)
     = Ok default_summary_table.
Proof.
  split; [reflexivity|]. by apply missing_summary_renders_defaults.
Defined.

Lemma bad_ram_bytes_raises_witness :
  sample_float_of_str (lit "16 GB") = None
  /\ main ascii_digits sample_float_of_str sample_int_of_str sample_repr
       sample_now
       (Args [] (lit "linux") (lit "cpu0") (lit "16 GB") (lit "go1.22")
          (lit "v20") (lit "4") (lit "2GiB") [] [] [] [])
       seal_log ts_log no_resources_doc
     = Raise ValueError.
Proof.
  split; [reflexivity|]. by apply bad_ram_bytes_raises.
Defined.

Lemma non_object_document_raises_witness :
  is_object (JArr []) = false
  /\ main ascii_digits sample_float_of_str sample_int_of_str sample_repr
       sample_now sample_args seal_log ts_log (JArr [])
     = Raise AttributeError.
Proof.
  split; [reflexivity|].
  by apply (non_object_document_raises _ _ _ _ _ _ _ _ _
              (binary_normalize 53 1024 17179869184 0 false)).
Defined.

Lemma null_counter_raises_witness :
  member (lit "max_sys_bytes")
    [ (lit "max_heap_alloc_bytes", JInt 10); (lit "max_sys_bytes", JNull) ]
  = Some JNull
  /\ resources_stage sample_int_of_str (JObj null_counter_members)
     = Raise TypeError
  /\ exists e,
       main ascii_digits sample_float_of_str sample_int_of_str sample_repr
         sample_now sample_args seal_log ts_log (JObj null_counter_members)
       = Raise e.
Proof.
  split; [reflexivity|]. split; [vm_compute; reflexivity|].
  destruct (null_counter_raises ascii_digits sample_float_of_str
              sample_int_of_str sample_repr sample_now null_counter_members
              [ (lit "max_heap_alloc_bytes", JInt 10);
                (lit "max_sys_bytes", JNull) ]
              (lit "max_sys_bytes")) as [_ H];
    [reflexivity | | reflexivity | apply H].
  unfold resource_keys. do 2 right. left.
Defined.

(** * Failures of [main] *)

Section MainFacts.

Variable nd : N -> bool.
Variable float_of_str : str -> option float.
Variable int_of_str : str -> option Z.
Variable repr_other : json -> str.
Variable now : str.

(** X9: for a float that is a number [fmt_float] never raises and writes the
    nearest decimal with the places asked for: the digits written, read
    as an integer [n], are the value [m * 2^e] times [10^places] when
    that is an integer and differ from it by half a unit at most
    otherwise. *)
Theorem fmt_float_nearest (s : bool) (m : positive) (e : Z) (p : nat) :
  exists ip frac,
    fmt_float float_of_str (JFloat (S754_finite s m e)) (S p)
    = Ok (sign s ++ ip ++ lit "." ++ frac)
    /\ length frac = S p
    /\ (let n := Z.of_N (decimal_value (ip ++ frac)) in
        if (0 <=? e)%Z
        then n = (Z.pos m * 10 ^ Z.of_nat (S p) * 2 ^ e)%Z
        else (Z.abs (2 * (n * 2 ^ (- e) - Z.pos m * 10 ^ Z.of_nat (S p)))
              <= 2 ^ (- e))%Z).
Proof.
  destruct (format_f_nearest s m e p) as (ip & frac & Hf & Hl & Hn).
  exists ip, frac. split; [|by split].
  unfold fmt_float. cbn [py_float]. by rewrite bind_Ok, Hf.
Qed.

(** [main] raises the same for all logs given as text. *)
Lemma main_raise_any_logs
    (a : args) (go_output ts_output go_output' ts_output' : str)
    (loadgen : json) (e : exn) :
  main nd float_of_str int_of_str repr_other now a go_output ts_output loadgen
  = Raise e ->
  main nd float_of_str int_of_str repr_other now a go_output' ts_output'
    loadgen
  = Raise e.
Proof.
  rewrite !main_by_stages.
  destruct (ram_stage float_of_str a); [|done].
  destruct (latency_stage float_of_str loadgen); [|done].
  destruct (config_stage repr_other loadgen); [|done].
  destruct (resources_stage int_of_str loadgen); [|done].
  destruct (summary_stage float_of_str repr_other loadgen); [|done].
  rewrite !bind_Ok. discriminate.
Qed.

Lemma main_assemble a go_output ts_output loadgen :
  main nd float_of_str int_of_str repr_other now a go_output ts_output loadgen
  = (go_bench ← parse_go nd (file_lines go_output);
     ts_bench ← parse_ts (file_lines ts_output);
     assemble float_of_str int_of_str repr_other now a go_bench ts_bench
       loadgen).
Proof. reflexivity. Qed.

Lemma main_files_read a go_file ts_file go_output ts_output loadgen :
  read_text go_file = Ok go_output ->
  read_text ts_file = Ok ts_output ->
  main_files nd float_of_str int_of_str repr_other now a go_file ts_file
    loadgen
  = main nd float_of_str int_of_str repr_other now a go_output ts_output
      loadgen.
Proof.
  intros Hg Ht. rewrite main_assemble. unfold main_files.
  rewrite Hg, bind_Ok, parse_go_buckets, !bind_Ok, Ht, bind_Ok.
  reflexivity.
Qed.

(** X16: the two logs make [main] fail only by being unreadable.  A log
    that cannot be opened, or that is not UTF-8, makes [main] raise the
    error of reading it, the first log before the second, whatever the
    arguments and the document.  When both logs can be read, their
    content never matters for failure: [main] then is [main] on their
    decoded text, and an exception that it raises it raises, the same
    one, for every two logs that can be read, with the same arguments and
    document. *)
Theorem logs_fail_main_only_unread
    (a : args) (go_file ts_file : file) (loadgen : json) :
  (forall e,
     read_text go_file = Raise e ->
     main_files nd float_of_str int_of_str repr_other now a go_file ts_file
       loadgen = Raise e)
  /\ (forall go_output e,
       read_text go_file = Ok go_output ->
       read_text ts_file = Raise e ->
       main_files nd float_of_str int_of_str repr_other now a go_file ts_file
         loadgen = Raise e)
  /\ (forall go_output ts_output,
       read_text go_file = Ok go_output ->
       read_text ts_file = Ok ts_output ->
       main_files nd float_of_str int_of_str repr_other now a go_file ts_file
         loadgen
       = main nd float_of_str int_of_str repr_other now a go_output ts_output
           loadgen
       /\ forall e go_file' ts_file' go_output' ts_output',
            main_files nd float_of_str int_of_str repr_other now a go_file
              ts_file loadgen = Raise e ->
            read_text go_file' = Ok go_output' ->
            read_text ts_file' = Ok ts_output' ->
            main_files nd float_of_str int_of_str repr_other now a go_file'
              ts_file' loadgen = Raise e).
Proof.
  split; [|split].
  - intros e He. unfold main_files. by rewrite He.
  - intros go_output e Hg He. unfold main_files.
    by rewrite Hg, bind_Ok, parse_go_buckets, bind_Ok, He.
  - intros go_output ts_output Hg Ht.
    split; [by apply main_files_read|].
    intros e go_file' ts_file' go_output' ts_output' He Hg' Ht'.
    rewrite (main_files_read _ _ _ _ _ _ Hg Ht) in He.
    rewrite (main_files_read _ _ _ _ _ _ Hg' Ht').
    by apply (main_raise_any_logs _ _ _ _ _ _ _ He).
Qed.

(** X17: a config that is [null], a Boolean or a number makes the config
    table raise [TypeError]: the membership test of the first key does. *)
Theorem scalar_config_raises (members : list (str * json)) (config : json) :
  member (lit "config") members = Some config ->
  is_scalar config = true ->
  config_stage repr_other (JObj members) = Raise TypeError.
Proof.
  intros Hm Hs. unfold config_stage, get. rewrite Hm. cbn [from_option id].
  rewrite bind_Ok. unfold config_order. rewrite for_each_cons.
  by destruct config.
Qed.

End MainFacts.

Lemma logs_fail_main_only_unread_witness :
  read_text (Bytes [66; 255]) = Raise UnicodeDecodeError
  /\ main_files ascii_digits sample_float_of_str sample_int_of_str sample_repr
       sample_now sample_args (Bytes [66; 255]) (Bytes yamux_log_bytes)
       (JObj []) = Raise UnicodeDecodeError
  /\ read_text NoFile = Raise OSError
  /\ main_files ascii_digits sample_float_of_str sample_int_of_str sample_repr
       sample_now sample_args (Bytes seal_log) NoFile (JObj [])
     = Raise OSError
  /\ read_text (Bytes yamux_log_bytes)
     = Ok (lit " > yamux" ++ nl
           ++ [bullet] ++ lit " open 2,000.25 0.1 0.2 0.4999 0.3" ++ nl)
  /\ main_files ascii_digits sample_float_of_str sample_int_of_str sample_repr
       sample_now sample_args (Bytes seal_log) (Bytes yamux_log_bytes)
       (JObj null_counter_members) = Raise TypeError
  /\ main_files ascii_digits sample_float_of_str sample_int_of_str sample_repr
       sample_now sample_args (Bytes []) (Bytes []) (JObj null_counter_members)
     = Raise TypeError.
Proof.
  destruct (logs_fail_main_only_unread ascii_digits sample_float_of_str
              sample_int_of_str sample_repr sample_now sample_args
              (Bytes [66; 255]) (Bytes yamux_log_bytes) (JObj []))
    as (Hgo & _ & _).
  destruct (logs_fail_main_only_unread ascii_digits sample_float_of_str
              sample_int_of_str sample_repr sample_now sample_args
              (Bytes seal_log) NoFile (JObj [])) as (_ & Hts & _).
  destruct (logs_fail_main_only_unread ascii_digits sample_float_of_str
              sample_int_of_str sample_repr sample_now sample_args
              (Bytes seal_log) (Bytes yamux_log_bytes)
              (JObj null_counter_members)) as (_ & _ & Hboth).
  destruct (Hboth seal_log
              (lit " > yamux" ++ nl
               ++ [bullet] ++ lit " open 2,000.25 0.1 0.2 0.4999 0.3" ++ nl))
    as [Hmain Hany]; [vm_compute; reflexivity ..|].
  assert (main_files ascii_digits sample_float_of_str sample_int_of_str
            sample_repr sample_now sample_args (Bytes seal_log)
            (Bytes yamux_log_bytes) (JObj null_counter_members)
          = Raise TypeError) as Hraise
    by (rewrite Hmain; vm_compute; reflexivity).
  split; [reflexivity|]. split; [by apply Hgo|].
  split; [reflexivity|]. split; [by apply (Hts seal_log)|].
  split; [vm_compute; reflexivity|]. split; [exact Hraise|].
  by apply (Hany TypeError (Bytes []) (Bytes []) [] []).
Defined.

Lemma scalar_config_raises_witness :
  member (lit "config") [ (lit "config", JNull) ] = Some JNull
  /\ config_stage sample_repr (JObj [ (lit "config", JNull) ])
     = Raise TypeError.
Proof.
  split; [reflexivity|]. by apply (scalar_config_raises _ _ JNull).
Defined.
